(** * FontEngine: font resolution and caching (src/client/fontengine.cpp)

    A shallow embedding of [FontEngine] and the properties of its
    resolution and caching policy.

    Conventions of the embedding:
    - [unsigned int]/[u32] values are [Z] with the wrap-around written
      [u32 z]; [s32] loop counters are [Z] (they stay far from overflow);
    - pointers to [irr::gui::IGUIFont] are [option IGUIFont], [None] being
      the null pointer;
    - [std::map<unsigned int, IGUIFont*>] is [gmap Z IGUIFont]; the arrays
      indexed by [FontMode] are fixed-size records ([per_mode]);
    - member functions are computations in a state-and-failure monad [M]
      over [State]; calls into the collaborators (file system, GUI
      environment, TrueType backend, skin, log streams) are recorded, in
      order, in the [trace] of the state;
    - everything the file only consumes (settings, display metrics, assets,
      backend, compile-time macros) is a field of the environment [Env]. *)

From Stdlib Require Import ssreflect ZArith String Ascii List Lia DecimalString.
From stdpp Require Import base option gmap strings list sorting.

Set Warnings "-rewrite-rw".
Open Scope Z_scope.

(** ** Data model *)

(** Modelled from the spec: the [FontMode] enumeration is declared in
    fontengine.h, which is not part of the sources at hand.  There are five
    rendering modes, which index [m_default_size] and [m_font_cache], and
    the request-only value [FM_Unspecified]. *)
Inductive FontMode : Set :=
  | FM_Standard
  | FM_Mono
  | FM_Fallback
  | FM_Simple
  | FM_SimpleMono
  | FM_Unspecified.

#[global] Instance FontMode_eq_dec : EqDecision FontMode.
Proof. solve_decision. Defined.

(** An [irr::gui::IGUIFont*] that is not null: the address of a font
    object owned by the GUI environment or by the TrueType backend. *)
Definition IGUIFont : Set := N.

(** An array [A x[FM_MaxMode]]: one slot per rendering mode. *)
Record per_mode (A : Type) : Type := PerMode {
  at_Standard : A;
  at_Mono : A;
  at_Fallback : A;
  at_Simple : A;
  at_SimpleMono : A
}.
Arguments PerMode {A} _ _ _ _ _.
Arguments at_Standard {A} _.
Arguments at_Mono {A} _.
Arguments at_Fallback {A} _.
Arguments at_Simple {A} _.
Arguments at_SimpleMono {A} _.

(** [t[mode]] as an rvalue; [FM_Unspecified] is past the end of the array. *)
Definition pm_get {A} (t : per_mode A) (mode : FontMode) : option A :=
  match mode with
  | FM_Standard => Some (at_Standard t)
  | FM_Mono => Some (at_Mono t)
  | FM_Fallback => Some (at_Fallback t)
  | FM_Simple => Some (at_Simple t)
  | FM_SimpleMono => Some (at_SimpleMono t)
  | FM_Unspecified => None
  end.

(** [t[mode] = v]; the callers check the index with [pm_get] first. *)
Definition pm_set {A} (t : per_mode A) (mode : FontMode) (v : A) : per_mode A :=
  match mode with
  | FM_Standard => PerMode v (at_Mono t) (at_Fallback t) (at_Simple t) (at_SimpleMono t)
  | FM_Mono => PerMode (at_Standard t) v (at_Fallback t) (at_Simple t) (at_SimpleMono t)
  | FM_Fallback => PerMode (at_Standard t) (at_Mono t) v (at_Simple t) (at_SimpleMono t)
  | FM_Simple => PerMode (at_Standard t) (at_Mono t) (at_Fallback t) v (at_SimpleMono t)
  | FM_SimpleMono => PerMode (at_Standard t) (at_Mono t) (at_Fallback t) (at_Simple t) v
  | FM_Unspecified => t
  end.

(** The slots in array order, as a range-based [for] visits them. *)
Definition pm_elems {A} (t : per_mode A) : list A :=
  [at_Standard t; at_Mono t; at_Fallback t; at_Simple t; at_SimpleMono t].

Definition pm_const {A} (v : A) : per_mode A := PerMode v v v v v.

(** The calls into collaborators and the output on the log streams. *)
Inductive event : Type :=
  | PathExists (path : string)                     (* fs::PathExists(path) *)
  | EnvGetFont (path : string)                     (* m_env->getFont(path) *)
  | CreateTTFont (path : string) (size shadow shadow_alpha : Z)
                                                   (* gui::CGUITTFont::createTTFont *)
  | Drop (font : IGUIFont)                         (* font->drop() *)
  | SkinSetFont (font : IGUIFont)                  (* m_env->getSkin()->setFont(font) *)
  | ErrorStream (msg : string)
  | VerboseStream (msg : string)
  | InfoStream (msg : string)
  | Call_initFont (basesize : Z) (mode : FontMode)
  | Call_initSimpleFont (basesize : Z) (mode : FontMode).
(* The last two record the entry into a creation strategy.  They are no
   effect of the code: they let a trace tell how often, and for which
   request, a strategy was called. *)

(** The members of [FontEngine] that the code mutates, the font of the
    skin ([m_env->getSkin()->getFont()]) and the trace. *)
Record State : Type := mkState {
  m_currentMode : FontMode;
  m_default_size : per_mode Z;
  m_font_cache : per_mode (gmap Z IGUIFont);
  skin_font : option IGUIFont;
  trace : list event
}.

(** What the file consumes from elsewhere.  The settings accessors are
    those of [Settings]; every key read here has a registered default, so
    they are total.  [scaled_size basesize] is the [u32] that
    [std::floor(RenderingEngine::getDisplayDensity() *
    m_settings->getFloat("gui_scaling") * basesize)] converts to: the
    floating-point product is the environment's. *)
Record Env : Type := mkEnv {
  USE_FREETYPE : bool;                 (* config.h *)
  NDEBUG : bool;                       (* assert() compiled out *)
  FONT_SIZE_UNSPECIFIED : Z;           (* fontengine.h *)
  DEFAULT_FONT_SIZE : Z;               (* constants.h *)
  settings_get : string -> string;          (* m_settings->get(key) *)
  settings_getDefault : string -> string;   (* m_settings->getDefault(key) *)
  settings_getU16 : string -> Z;            (* m_settings->getU16(key) *)
  g_settings_getBool : string -> bool;      (* g_settings->getBool(key) *)
  g_settings_getU16NoEx : string -> option Z; (* g_settings->getU16NoEx(key, out) *)
  needs_fallback_font : bool;          (* is_yes(gettext("needs_fallback_font")) *)
  scaled_size : Z -> Z;
  show_density : string;               (* operator<< of the display density *)
  fs_PathExists : string -> bool;
  env_getFont : string -> option IGUIFont;
  createTTFont : string -> Z -> Z -> Z -> option IGUIFont;
  getDimension : IGUIFont -> string -> Z * Z;  (* (Width, Height) *)
  getKerningHeight : IGUIFont -> Z;
  lowercase : string -> string         (* util/string.h *)
}.

(** ** The monad of member functions *)

Inductive failure : Set :=
  | Abort                               (* abort() *)
  | AssertionFailed (expr : string)     (* assert(expr) with expr false *)
  | OutOfRange (what : string)          (* std::out_of_range thrown, never caught here *)
  | ArrayOutOfBounds.                   (* index past the end of a C array *)

Inductive Result (A : Type) : Type :=
  | Ok (a : A) (st : State)
  | Fail (f : failure) (st : State).
Arguments Ok {A} _ _.
Arguments Fail {A} _ _.

Definition M (A : Type) : Type := State -> Result A.

Definition ret {A} (a : A) : M A := fun st => Ok a st.
Definition bind {A B} (c : M A) (k : A -> M B) : M B :=
  fun st => match c st with
            | Ok a st' => k a st'
            | Fail f st' => Fail f st'
            end.
Definition fail {A} (f : failure) : M A := fun st => Fail f st.
Definition gets {A} (proj : State -> A) : M A := fun st => Ok (proj st) st.
Definition modify (g : State -> State) : M unit := fun st => Ok tt (g st).

Declare Scope fe_scope.
Delimit Scope fe_scope with fe.
Notation "x <- c1 ;; c2" := (bind c1 (fun x => c2))
  (at level 100, c1 at next level, right associativity) : fe_scope.
Notation "c1 ;;; c2" := (bind c1 (fun _ => c2))
  (at level 100, right associativity) : fe_scope.
Open Scope fe_scope.

Definition add_events (evs : list event) (st : State) : State :=
  mkState (m_currentMode st) (m_default_size st) (m_font_cache st)
          (skin_font st) (trace st ++ evs).

Definition emit (e : event) : M unit := modify (add_events [e]).

(** [arr[mode]] for an array member. *)
Definition index {A} (arr : State -> per_mode A) (mode : FontMode) : M A :=
  fun st => match pm_get (arr st) mode with
            | Some v => Ok v st
            | None => Fail ArrayOutOfBounds st
            end.

Definition set_currentMode (mode : FontMode) : M unit :=
  modify (fun st => mkState mode (m_default_size st) (m_font_cache st)
                            (skin_font st) (trace st)).

(** [m_default_size[mode] = v] *)
Definition set_default_size (mode : FontMode) (v : Z) : M unit :=
  _ <- index m_default_size mode ;;
  modify (fun st => mkState (m_currentMode st) (pm_set (m_default_size st) mode v)
                            (m_font_cache st) (skin_font st) (trace st)).

(** [m_font_cache[mode][key] = font] *)
Definition cache_assign (mode : FontMode) (key : Z) (font : IGUIFont) : M unit :=
  cache <- index m_font_cache mode ;;
  modify (fun st => mkState (m_currentMode st) (m_default_size st)
                            (pm_set (m_font_cache st) mode (<[key := font]> cache))
                            (skin_font st) (trace st)).

Definition set_skin_font (font : IGUIFont) : M unit :=
  modify (fun st => mkState (m_currentMode st) (m_default_size st) (m_font_cache st)
                            (Some font) (trace st ++ [SkinSetFont font])).

(** ** Integers and strings *)

Definition u32 (z : Z) : Z := z mod 2 ^ 32.

(** [operator<<] of an [unsigned int] on a stream: decimal digits. *)
Definition show_u32 (n : Z) : string :=
  NilZero.string_of_uint (N.to_uint (Z.to_N n)).

Fixpoint find_last_of_from (c : ascii) (s : string) (i : nat) (last : option nat)
  : option nat :=
  match s with
  | EmptyString => last
  | String a s' =>
      find_last_of_from c s' (S i) (if Ascii.eqb a c then Some i else last)
  end.

(** [s.find_last_of(c)]; [None] is [std::string::npos]. *)
Definition find_last_of (s : string) (c : ascii) : option nat :=
  find_last_of_from c s 0%nat None.

(** [s.substr(pos)]: the suffix from [pos]; throws [std::out_of_range] when
    [pos > s.size()], which [npos] always is.  [None] is the throw. *)
Definition substr_from (s : string) (pos : option nat) : option string :=
  match pos with
  | Some p =>
      if (p <=? String.length s)%nat
      then Some (String.substring p (String.length s - p) s)
      else None
  | None => None
  end.

(** [s.substr(0, n)] *)
Definition substr_to (s : string) (n : nat) : string := String.substring 0 n s.

(** [tolower] in the C locale, for concrete environments. *)
Definition ascii_tolower (a : ascii) : ascii :=
  let n := nat_of_ascii a in
  if ((65 <=? n) && (n <=? 90))%nat then ascii_of_nat (n + 32) else a.

Fixpoint ascii_lowercase (s : string) : string :=
  match s with
  | EmptyString => EmptyString
  | String a s' => String (ascii_tolower a) (ascii_lowercase s')
  end.

Definition dquote : string := String "034"%char EmptyString.
Definition newline_tab : string := String "010"%char (String "009"%char EmptyString).

(** ** The member functions *)

Section FontEngine.

Variable E : Env.

(** maximum size distance for getting a "similar" font size *)
Definition MAX_FONT_SIZE_OFFSET : Z := 10.

(** [assert(cond)]: nothing when compiled with [NDEBUG]. *)
Definition assert (cond : bool) (expr : string) : M unit :=
  if NDEBUG E || cond then ret tt else fail (AssertionFailed expr).

(** Modelled from the spec: [FATAL_ERROR_IF] of debug.h is not part of the
    sources at hand; when the condition holds the process is aborted with
    the diagnostic. *)
Definition FATAL_ERROR_IF (cond : bool) (msg : string) : M unit :=
  if cond then emit (ErrorStream msg) ;;; fail Abort else ret tt.

Definition call_PathExists (path : string) : M bool :=
  emit (PathExists path) ;;; ret (fs_PathExists E path).

Definition call_env_getFont (path : string) : M (option IGUIFont) :=
  emit (EnvGetFont path) ;;; ret (env_getFont E path).

Definition call_createTTFont (path : string) (size shadow shadow_alpha : Z)
  : M (option IGUIFont) :=
  emit (CreateTTFont path size shadow shadow_alpha) ;;;
  ret (createTTFont E path size shadow shadow_alpha).

(** A [std::map] is traversed in ascending order of its keys. *)
Definition key_le (a b : Z * IGUIFont) : Prop := a.1 <= b.1.

#[global] Instance key_le_dec : RelDecision key_le.
Proof. intros a b. unfold key_le. apply Z_le_dec. Defined.

Definition in_order (cache : gmap Z IGUIFont) : list (Z * IGUIFont) :=
  merge_sort key_le (map_to_list cache).

(** [FontEngine::cleanCache] *)
Definition cleanCache : M unit :=
  caches <- gets m_font_cache ;;
  modify (add_events
            (flat_map (fun cache => map (fun kv => Drop kv.2) (in_order cache))
                      (pm_elems caches))) ;;;
  modify (fun st => mkState (m_currentMode st) (m_default_size st) (pm_const ∅)
                            (skin_font st) (trace st)).

(** The loop of [initFont] over [fallback_settings]; [true] when the
    function returned from inside the loop. *)
Fixpoint initFont_paths (paths : list string) (size font_shadow font_shadow_alpha : Z)
    (basesize : Z) (mode : FontMode) : M bool :=
  match paths with
  | [] => ret false
  | font_path :: rest =>
      font <- call_createTTFont font_path size font_shadow font_shadow_alpha ;;
      match font with
      | Some f => cache_assign mode basesize f ;;; ret true
      | None =>
          emit (ErrorStream ("FontEngine: Cannot load '" +:+ font_path +:+
                             "'. Trying to fall back to another path.")) ;;;
          initFont_paths rest size font_shadow font_shadow_alpha basesize mode
      end
  end.

Definition setting_prefix_of (mode : FontMode) : string :=
  match mode with
  | FM_Fallback => "fallback_"
  | FM_Mono | FM_SimpleMono => "mono_"
  | _ => ""
  end.

(** [FontEngine::initFont] *)
Definition initFont (basesize : Z) (mode : FontMode) : M unit :=
  emit (Call_initFont basesize mode) ;;;
  assert (bool_decide (mode ≠ FM_Unspecified)) "mode != FM_Unspecified" ;;;
  assert (bool_decide (basesize ≠ FONT_SIZE_UNSPECIFIED E))
         "basesize != FONT_SIZE_UNSPECIFIED" ;;;
  cache <- index m_font_cache mode ;;
  match cache !! basesize with
  | Some _ => ret tt
  | None =>
      let setting_prefix := setting_prefix_of mode in
      let size := scaled_size E basesize in
      if size =? 0 then
        emit (ErrorStream "FontEngine: attempt to use font size 0") ;;;
        emit (ErrorStream ("  display density: " +:+ show_density E)) ;;;
        fail Abort
      else
        let font_shadow :=
          default 0 (g_settings_getU16NoEx E (setting_prefix +:+ "font_shadow")) in
        let font_shadow_alpha :=
          default 0 (g_settings_getU16NoEx E (setting_prefix +:+ "font_shadow_alpha")) in
        let fallback_settings :=
          [ settings_get E (setting_prefix +:+ "font_path");
            settings_get E "fallback_font_path";
            settings_getDefault E (setting_prefix +:+ "font_path") ] in
        if USE_FREETYPE E then
          returned <- initFont_paths fallback_settings size font_shadow
                                     font_shadow_alpha basesize mode ;;
          if returned : bool then ret tt
          else
            emit (ErrorStream ("minetest can not continue without a valid font. " +:+
                               "Please correct the 'font_path' setting or install the font " +:+
                               "file in the proper location")) ;;;
            fail Abort
        else
          emit (ErrorStream ("FontEngine: Tried to load freetype fonts but Minetest was" +:+
                             " not compiled with that library.")) ;;;
          fail Abort
  end.

Definition font_extensions : list string := [".png"; ".xml"].

(** The inner loop of [initSimpleFont] over [font_extensions], entered with
    [font == nullptr]; [number] is [size + offset * sign]. *)
Fixpoint simple_extensions (basename : string) (number : Z) (exts : list string)
  : M (option IGUIFont) :=
  match exts with
  | [] => ret None
  | ext :: rest =>
      let path := basename +:+ "_" +:+ show_u32 number +:+ ext in
      found <- call_PathExists path ;;
      if negb found then simple_extensions basename number rest
      else
        font <- call_env_getFont path ;;
        match font with
        | Some f =>
            emit (VerboseStream ("FontEngine: found font: " +:+ path)) ;;;
            ret (Some f)
        | None => simple_extensions basename number rest
        end
  end.

(** The outer loop of [initSimpleFont]: [fuel] bounds the iterations left;
    the loop condition is the code's. *)
Fixpoint simple_zigzag (basename : string) (size : Z) (fuel : nat) (zoffset : Z)
  : M (option IGUIFont) :=
  match fuel with
  | O => ret None
  | S fuel' =>
      if zoffset <? MAX_FONT_SIZE_OFFSET * 2 then
        let sign := if Z.land zoffset 1 =? 0 then 1 else -1 in
        let offset := Z.shiftr zoffset 1 in
        font <- simple_extensions basename (u32 (size + offset * sign))
                                  font_extensions ;;
        match font with
        | Some f => ret (Some f)
        | None => simple_zigzag basename size fuel' (zoffset + 1)
        end
      else ret None
  end.

(** [FontEngine::initSimpleFont] *)
Definition initSimpleFont (basesize : Z) (mode : FontMode) : M unit :=
  emit (Call_initSimpleFont basesize mode) ;;;
  assert (bool_decide (mode = FM_Simple ∨ mode = FM_SimpleMono))
         "mode == FM_Simple || mode == FM_SimpleMono" ;;;
  let font_path :=
    settings_get E (if bool_decide (mode = FM_SimpleMono)
                    then "mono_font_path" else "font_path") in
  let pos_dot := find_last_of font_path "." in
  match substr_from font_path pos_dot with
  | None => fail (OutOfRange "basic_string::substr")
  | Some suffix =>
      let ending := lowercase E suffix in
      if bool_decide (ending = ".ttf") then
        emit (ErrorStream ("FontEngine: Found font " +:+ dquote +:+ font_path +:+
                           dquote +:+ " but freetype is not available."))
      else
        let basename :=
          if bool_decide (ending = ".xml" ∨ ending = ".png")
          then substr_to font_path (default 0%nat pos_dot)
          else font_path in
        let basesize' :=
          if bool_decide (basesize = FONT_SIZE_UNSPECIFIED E)
          then DEFAULT_FONT_SIZE E else basesize in
        let size := scaled_size E basesize' in
        font <- simple_zigzag basename size
                              (Z.to_nat (MAX_FONT_SIZE_OFFSET * 2)) 0 ;;
        font <- match font with
                | Some f => ret (Some f)
                | None =>
                    found <- call_PathExists font_path ;;
                    if found : bool then
                      font <- call_env_getFont font_path ;;
                      match font with
                      | Some f =>
                          emit (VerboseStream ("FontEngine: found font: " +:+ font_path)) ;;;
                          ret (Some f)
                      | None => ret None
                      end
                    else ret None
                end ;;
        match font with
        | Some f => cache_assign mode basesize' f
        | None => ret tt
        end
  end.

(** [FontEngine::getFont] *)
Definition getFont (font_size : Z) (mode : FontMode) : M (option IGUIFont) :=
  currentMode <- gets m_currentMode ;;
  let mode :=
    if bool_decide (mode = FM_Unspecified) then currentMode
    else if bool_decide (currentMode = FM_Simple) then
      (if bool_decide (mode = FM_Mono ∨ mode = FM_SimpleMono)
       then FM_SimpleMono else FM_Simple)
    else mode in
  font_size <- (if bool_decide (font_size = FONT_SIZE_UNSPECIFIED E)
                then index m_default_size mode
                else ret font_size) ;;
  cache <- index m_font_cache mode ;;
  match cache !! font_size with
  | None =>
      if bool_decide (mode = FM_Simple ∨ mode = FM_SimpleMono)
      then initSimpleFont font_size mode
      else initFont font_size mode
  | Some _ => ret tt
  end ;;;
  cache <- index m_font_cache mode ;;
  ret (cache !! font_size).

Definition skin_fallback (font : option IGUIFont) : M (option IGUIFont) :=
  match font with
  | Some f => ret (Some f)
  | None => gets skin_font
  end.

(** [FontEngine::getTextHeight] *)
Definition getTextHeight (font_size : Z) (mode : FontMode) : M Z :=
  font <- getFont font_size mode ;;
  font <- skin_fallback font ;;
  FATAL_ERROR_IF (bool_decide (font = None)) "Could not get skin font" ;;;
  match font with
  | Some f => ret (getDimension E f "Some unimportant example String").2
  | None => fail Abort
  end.

(** [FontEngine::getTextWidth] *)
Definition getTextWidth (text : string) (font_size : Z) (mode : FontMode) : M Z :=
  font <- getFont font_size mode ;;
  font <- skin_fallback font ;;
  FATAL_ERROR_IF (bool_decide (font = None)) "Could not get font" ;;;
  match font with
  | Some f => ret (getDimension E f text).1
  | None => fail Abort
  end.

(** [FontEngine::getLineHeight] *)
Definition getLineHeight (font_size : Z) (mode : FontMode) : M Z :=
  font <- getFont font_size mode ;;
  font <- skin_fallback font ;;
  FATAL_ERROR_IF (bool_decide (font = None)) "Could not get font" ;;;
  match font with
  | Some f => ret (u32 ((getDimension E f "Some unimportant example String").2
                        + getKerningHeight E f))
  | None => fail Abort
  end.

(** [FontEngine::getDefaultFontSize] *)
Definition getDefaultFontSize : M Z :=
  currentMode <- gets m_currentMode ;;
  index m_default_size currentMode.

(** [FontEngine::updateFontCache] *)
Definition updateFontCache : M unit :=
  _ <- getFont (FONT_SIZE_UNSPECIFIED E) FM_Unspecified ;; ret tt.

(** [FontEngine::updateSkin] *)
Definition updateSkin : M unit :=
  font <- getFont (FONT_SIZE_UNSPECIFIED E) FM_Unspecified ;;
  match font with
  | Some f => set_skin_font f
  | None =>
      emit (ErrorStream ("FontEngine: Default font file: " +:+
                         newline_tab +:+ dquote +:+ settings_get E "font_path" +:+ dquote +:+
                         newline_tab +:+ "required for current screen configuration was not found" +:+
                         " or was invalid file format." +:+
                         newline_tab +:+ "Using irrlicht default font."))
  end ;;;
  font <- gets skin_font ;;
  FATAL_ERROR_IF (bool_decide (font = None)) "Could not create/get font" ;;;
  match font with
  | Some f =>
      emit (InfoStream ("text_height=" +:+ show_u32 (getDimension E f "Hello, world!").2))
  | None => fail Abort
  end.

(** [FontEngine::readSettings] *)
Definition readSettings : M unit :=
  (if USE_FREETYPE E && g_settings_getBool E "freetype" then
     set_default_size FM_Standard (settings_getU16 E "font_size") ;;;
     set_default_size FM_Fallback (settings_getU16 E "fallback_font_size") ;;;
     set_default_size FM_Mono (settings_getU16 E "mono_font_size") ;;;
     set_currentMode (if needs_fallback_font E then FM_Fallback else FM_Standard)
   else
     set_currentMode FM_Simple) ;;;
  set_default_size FM_Simple (settings_getU16 E "font_size") ;;;
  set_default_size FM_SimpleMono (settings_getU16 E "mono_font_size") ;;;
  cleanCache ;;;
  updateFontCache ;;;
  updateSkin.

End FontEngine.

(** ** The nearest-match search, as a list of candidates *)

(** The signed offset of step [z] of the search: −1 if [z] is odd, else
    +1, times [z >> 1]. *)
Definition zigzag_offset (z : Z) : Z :=
  (if Z.odd z then -1 else 1) * Z.shiftr z 1.

(** basename + "_" + (S + offset) + extension, the sum being an
    [unsigned int]. *)
Definition candidate_name (basename : string) (S : Z) (z : Z) (ext : string) : string :=
  basename +:+ "_" +:+ show_u32 (u32 (S + zigzag_offset z)) +:+ ext.

(** The candidates of one step: .png, then .xml. *)
Definition step_candidates (basename : string) (S : Z) (z : Z) : list string :=
  [candidate_name basename S z ".png"; candidate_name basename S z ".xml"].

(** The steps [z = from, from + 1, ..., from + n - 1]. *)
Definition candidates_from (basename : string) (S : Z) (from : Z) (n : nat) : list string :=
  flat_map (fun i => step_candidates basename S (from + Z.of_nat i)) (seq 0 n).

(** All candidates, in the order of the search: [z = 0, 1, ..., 19]. *)
Definition candidates (basename : string) (S : Z) : list string :=
  candidates_from basename S 0 20.

(** An asset that exists and loads as a font. *)
Definition loads (E : Env) (path : string) : bool :=
  fs_PathExists E path && bool_decide (is_Some (env_getFont E path)).

(** What trying one asset name leaves in the trace. *)
Definition probe_events (E : Env) (path : string) : list event :=
  PathExists path ::
  (if fs_PathExists E path then
     EnvGetFont path ::
     match env_getFont E path with
     | Some _ => [VerboseStream ("FontEngine: found font: " +:+ path)]
     | None => []
     end
   else []).

(** Trying the names of [l] in order up to the first that loads. *)
Definition tried (E : Env) (l : list string) : list string :=
  match list_find (fun p => loads E p = true) l with
  | Some (i, _) => take (S i) l
  | None => l
  end.

Definition first_font (E : Env) (l : list string) : option IGUIFont :=
  match list_find (fun p => loads E p = true) l with
  | Some (_, p) => env_getFont E p
  | None => None
  end.

(** The same, as a computation. *)
Fixpoint probe_all (E : Env) (l : list string) : M (option IGUIFont) :=
  match l with
  | [] => ret None
  | path :: rest =>
      found <- call_PathExists E path ;;
      if negb found then probe_all E rest
      else
        font <- call_env_getFont E path ;;
        match font with
        | Some f =>
            emit (VerboseStream ("FontEngine: found font: " +:+ path)) ;;;
            ret (Some f)
        | None => probe_all E rest
        end
  end.


(** ** Requests, as the specification words them *)

(** Mode normalization: a request of [FM_Unspecified] becomes the current
    mode; otherwise, when the current mode is [FM_Simple], a requested
    [FM_Mono] or [FM_SimpleMono] becomes [FM_SimpleMono] and any other
    mode becomes [FM_Simple]. *)
Definition normalized_mode (currentMode requested : FontMode) : FontMode :=
  match requested, currentMode with
  | FM_Unspecified, _ => currentMode
  | (FM_Mono | FM_SimpleMono), FM_Simple => FM_SimpleMono
  | _, FM_Simple => FM_Simple
  | _, _ => requested
  end.

(** Size normalization, after the mode's: an unspecified size becomes the
    default size of the normalized mode. *)
Definition normalized_size (E : Env) (st : State) (mode' : FontMode) (font_size : Z)
  : option Z :=
  if bool_decide (font_size = FONT_SIZE_UNSPECIFIED E)
  then pm_get (m_default_size st) mode'
  else Some font_size.

(** The cache key of a request. *)
Definition resolve (E : Env) (st : State) (font_size : Z) (mode : FontMode)
  : option (FontMode * Z) :=
  let mode' := normalized_mode (m_currentMode st) mode in
  size' ← normalized_size E st mode' font_size ;
  Some (mode', size').

(** The entry of the cache under a key. *)
Definition cached (st : State) (mode : FontMode) (key : Z) : option IGUIFont :=
  cache ← pm_get (m_font_cache st) mode ; cache !! key.

Definition simple_mode (mode : FontMode) : bool :=
  bool_decide (mode = FM_Simple ∨ mode = FM_SimpleMono).

Definition outline_mode (mode : FontMode) : bool :=
  bool_decide (mode = FM_Standard ∨ mode = FM_Mono ∨ mode = FM_Fallback).

(** Lookup, creation on a miss by the strategy of the mode, lookup again:
    what [getFont] does with the normalized request. *)
Definition lookup_or_create (E : Env) (font_size : Z) (mode : FontMode)
  : M (option IGUIFont) :=
  cache <- index m_font_cache mode ;;
  match cache !! font_size with
  | None =>
      if simple_mode mode
      then initSimpleFont E font_size mode
      else initFont E font_size mode
  | Some _ => ret tt
  end ;;;
  cache <- index m_font_cache mode ;;
  ret (cache !! font_size).

(** The state with [font] stored under [(mode, key)]. *)
Definition with_font (mode : FontMode) (key : Z) (font : IGUIFont) (st : State) : State :=
  mkState (m_currentMode st) (m_default_size st)
          (pm_set (m_font_cache st) mode
                  (<[key := font]> (default ∅ (pm_get (m_font_cache st) mode))))
          (skin_font st) (trace st).

(** The configured path of the discrete-asset strategy and what
    [initSimpleFont] makes of it. *)
Definition simple_font_path (E : Env) (mode : FontMode) : string :=
  settings_get E (if bool_decide (mode = FM_SimpleMono)
                  then "mono_font_path" else "font_path").

Inductive path_kind : Set :=
  | NoDot                          (* no '.' in the path *)
  | TrueType                       (* the suffix from the last '.' lowercases to ".ttf" *)
  | Assets (basename : string).    (* the stem of the asset names *)

Definition classify (E : Env) (font_path : string) : path_kind :=
  match find_last_of font_path "." with
  | None => NoDot
  | Some pos_dot =>
      let ending :=
        lowercase E (String.substring pos_dot (String.length font_path - pos_dot)
                                      font_path) in
      if bool_decide (ending = ".ttf") then TrueType
      else if bool_decide (ending = ".xml" ∨ ending = ".png")
           then Assets (String.substring 0 pos_dot font_path)
           else Assets font_path
  end.

(** The size under which [initSimpleFont] stores a font. *)
Definition simple_key (E : Env) (basesize : Z) : Z :=
  if bool_decide (basesize = FONT_SIZE_UNSPECIFIED E)
  then DEFAULT_FONT_SIZE E else basesize.

(** Everything the discrete-asset strategy tries: the candidates of the
    search, then the configured path itself. *)
Definition simple_attempts (E : Env) (basename font_path : string) (basesize : Z)
  : list string :=
  candidates basename (scaled_size E (simple_key E basesize)) ++ [font_path].

(** The key under which the strategy of [mode'] stores the font of a
    request for [size']. *)
Definition request_key (E : Env) (mode' : FontMode) (size' : Z) : Z :=
  if simple_mode mode' then simple_key E size' else size'.

(** The calls of the creation strategies in a trace. *)
Definition is_creation_call (e : event) : bool :=
  match e with
  | Call_initFont _ _ | Call_initSimpleFont _ _ => true
  | _ => false
  end.

Definition creation_calls (tr : list event) : nat :=
  length (filter (fun e => is_creation_call e = true) tr).

(** The three candidate paths of the outline strategy. *)
Definition outline_paths (E : Env) (mode : FontMode) : list string :=
  [ settings_get E (setting_prefix_of mode +:+ "font_path");
    settings_get E "fallback_font_path";
    settings_getDefault E (setting_prefix_of mode +:+ "font_path") ].

Definition outline_shadow (E : Env) (mode : FontMode) : Z :=
  default 0 (g_settings_getU16NoEx E (setting_prefix_of mode +:+ "font_shadow")).

Definition outline_shadow_alpha (E : Env) (mode : FontMode) : Z :=
  default 0 (g_settings_getU16NoEx E (setting_prefix_of mode +:+ "font_shadow_alpha")).

Definition cannot_load (font_path : string) : event :=
  ErrorStream ("FontEngine: Cannot load '" +:+ font_path +:+
               "'. Trying to fall back to another path.").

Definition no_valid_font : event :=
  ErrorStream ("minetest can not continue without a valid font. " +:+
               "Please correct the 'font_path' setting or install the font " +:+
               "file in the proper location").

Definition no_freetype : event :=
  ErrorStream ("FontEngine: Tried to load freetype fonts but Minetest was" +:+
               " not compiled with that library.").

Definition size_zero (E : Env) : list event :=
  [ ErrorStream "FontEngine: attempt to use font size 0";
    ErrorStream ("  display density: " +:+ show_density E) ].

Definition found_truetype (font_path : string) : event :=
  ErrorStream ("FontEngine: Found font " +:+ dquote +:+ font_path +:+
               dquote +:+ " but freetype is not available.").

(** The [drop()] calls of a cache flush. *)
Definition drops (caches : per_mode (gmap Z IGUIFont)) : list event :=
  flat_map (fun cache => map (fun kv => Drop kv.2) (in_order cache)) (pm_elems caches).

(** ** Configuration changes, as the specification words them *)

Definition freetype_enabled (E : Env) : bool :=
  USE_FREETYPE E && g_settings_getBool E "freetype".

(** The active mode that the configuration asks for. *)
Definition configured_mode (E : Env) : FontMode :=
  if freetype_enabled E
  then (if needs_fallback_font E then FM_Fallback else FM_Standard)
  else FM_Simple.

(** The default sizes after a configuration change: all five entries
    come from the configuration when the backend is enabled; otherwise
    only the entries of the two discrete-asset modes do. *)
Definition configured_sizes (E : Env) (old : per_mode Z) : per_mode Z :=
  if freetype_enabled E
  then PerMode (settings_getU16 E "font_size") (settings_getU16 E "mono_font_size")
               (settings_getU16 E "fallback_font_size")
               (settings_getU16 E "font_size") (settings_getU16 E "mono_font_size")
  else PerMode (at_Standard old) (at_Mono old) (at_Fallback old)
               (settings_getU16 E "font_size") (settings_getU16 E "mono_font_size").

(** The default sizes if the whole table came from the configuration. *)
Definition sizes_from_configuration (E : Env) : per_mode Z :=
  PerMode (settings_getU16 E "font_size") (settings_getU16 E "mono_font_size")
          (settings_getU16 E "fallback_font_size")
          (settings_getU16 E "font_size") (settings_getU16 E "mono_font_size").

(** The state once the mode and the sizes are recomputed and the cache is
    flushed. *)
Definition flushed (E : Env) (st : State) : State :=
  mkState (configured_mode E) (configured_sizes E (m_default_size st))
          (pm_const ∅) (skin_font st)
          (trace st ++ drops (m_font_cache st)).

(** The entry event of the strategy that creates the fonts of [mode]. *)
Definition creation_call (mode : FontMode) (basesize : Z) : event :=
  if simple_mode mode then Call_initSimpleFont basesize mode
  else Call_initFont basesize mode.

(** ** Concrete environments *)

Fixpoint assoc {A} (key : string) (l : list (string * A)) : option A :=
  match l with
  | [] => None
  | (k, v) :: rest => if String.eqb k key then Some v else assoc key rest
  end.

(** An environment given by its settings, its assets (a name that exists
    maps to the font it loads as, if any), its TrueType files and its
    scaling. *)
Definition demo_env (compiled enabled : bool) (strings : list (string * string))
    (sizes : list (string * Z)) (assets : list (string * option IGUIFont))
    (ttf : list (string * IGUIFont)) (scale : Z -> Z) : Env :=
  {| USE_FREETYPE := compiled;
     NDEBUG := false;
     FONT_SIZE_UNSPECIFIED := 4294967295;
     DEFAULT_FONT_SIZE := 10;
     settings_get := fun key => default EmptyString (assoc key strings);
     settings_getDefault := fun key =>
       default EmptyString (assoc ("default:" +:+ key) strings);
     settings_getU16 := fun key => default 0 (assoc key sizes) mod 65536;
     g_settings_getBool := fun key => enabled && String.eqb key "freetype";
     g_settings_getU16NoEx := fun key => assoc key sizes;
     needs_fallback_font := false;
     scaled_size := scale;
     show_density := "1";
     fs_PathExists := fun path => bool_decide (is_Some (assoc path assets));
     env_getFont := fun path => mjoin (assoc path assets);
     createTTFont := fun path _ _ _ => assoc path ttf;
     getDimension := fun font text =>
       (Z.of_nat (String.length text) * Z.of_N font, Z.of_N font);
     getKerningHeight := fun _ => 2;
     lowercase := ascii_lowercase |}.

Definition demo_sizes : list (string * Z) :=
  [("font_size", 16); ("mono_font_size", 15); ("fallback_font_size", 14);
   ("font_shadow", 1); ("font_shadow_alpha", 127)].

(** A build without the TrueType backend; bitmap assets next to
    "fonts/lucida". *)
Definition simple_env (font_path : string) (assets : list (string * option IGUIFont))
    (scale : Z -> Z) : Env :=
  demo_env false false [("font_path", font_path); ("mono_font_path", font_path)]
           demo_sizes assets [] scale.

(** A build with the backend, enabled. *)
Definition outline_env (ttf : list (string * IGUIFont)) (scale : Z -> Z) : Env :=
  demo_env true true
           [("font_path", "fonts/Arimo-Regular.ttf");
            ("mono_font_path", "fonts/Cousine-Regular.ttf");
            ("fallback_font_path", "fonts/DroidSansFallbackFull.ttf");
            ("default:font_path", "share/fonts/Arimo-Regular.ttf");
            ("default:mono_font_path", "share/fonts/Cousine-Regular.ttf");
            ("default:fallback_font_path", "share/fonts/DroidSansFallbackFull.ttf")]
           demo_sizes [] ttf scale.

(** An engine in mode [mode] with empty caches and a skin font. *)
Definition demo_state (mode : FontMode) (default_size : Z) : State :=
  mkState mode (pm_const default_size) (pm_const ∅) (Some 1%N) [].

(** The loop of the outline strategy over its candidate paths: the events
    it leaves and the font of the first path that the backend accepts. *)
Fixpoint outline_attempt (E : Env) (size shadow shadow_alpha : Z) (paths : list string)
  : list event * option IGUIFont :=
  match paths with
  | [] => ([], None)
  | font_path :: rest =>
      match createTTFont E font_path size shadow shadow_alpha with
      | Some f => ([CreateTTFont font_path size shadow shadow_alpha], Some f)
      | None =>
          let r := outline_attempt E size shadow shadow_alpha rest in
          (CreateTTFont font_path size shadow shadow_alpha :: cannot_load font_path :: r.1,
           r.2)
      end
  end.

(** An engine whose default sizes are all the unspecified sentinel, the
    value the constructor fills the table with before it reads the
    settings for the first time. *)
Definition fresh_state (E : Env) (mode : FontMode) : State :=
  mkState mode (pm_const (FONT_SIZE_UNSPECIFIED E)) (pm_const ∅) (Some 1%N) [].

(** No bitmap asset at all. *)
Definition bare_env : Env := simple_env "fonts/lucida.xml" [] (fun basesize => basesize).

(** One bitmap asset, at size 12. *)
Definition lucida12_env : Env :=
  simple_env "fonts/lucida.xml" [("fonts/lucida_12.png", Some 7%N)]
             (fun basesize => basesize).

(** One bitmap asset, at the compiled-in default size. *)
Definition lucida10_env : Env :=
  simple_env "fonts/lucida.xml" [("fonts/lucida_10.png", Some 7%N)]
             (fun basesize => basesize).

(** A scaling that rounds every size down to zero pixels. *)
Definition tiny_simple_env : Env := simple_env "fonts/lucida.xml" [] (fun _ => 0).
Definition tiny_outline_env : Env := outline_env [] (fun _ => 0).

(** The same scaling, with the configured font file installed. *)
Definition tiny_installed_env : Env :=
  outline_env [("fonts/Arimo-Regular.ttf", 4%N)] (fun _ => 0).

(** A TrueType path configured in a build without the backend. *)
Definition truetype_env : Env :=
  simple_env "fonts/Arimo-Regular.TTF" [] (fun basesize => basesize).

(** The stock path of a build without the backend, installed under a
    directory without any '.'. *)
Definition dotless_env : Env :=
  simple_env "/usr/share/minetest/fonts/mono_dejavu_sans" [] (fun basesize => basesize).

(** Only the fallback font file is installed. *)
Definition fallback_only_env : Env :=
  outline_env [("fonts/DroidSansFallbackFull.ttf", 5%N)] (fun basesize => basesize).

(** Bitmap assets three sizes below and four sizes above 12. *)
Definition lucida_9_16_env : Env :=
  simple_env "fonts/lucida.xml"
             [("fonts/lucida_16.png", Some 6%N); ("fonts/lucida_9.png", Some 8%N)]
             (fun basesize => basesize).

(** Bitmap assets three sizes above (.xml) and three sizes below (.png). *)
Definition lucida_15_9_env : Env :=
  simple_env "fonts/lucida.xml"
             [("fonts/lucida_15.xml", Some 7%N); ("fonts/lucida_9.png", Some 8%N)]
             (fun basesize => basesize).

(** * The rest of the engine *)

(** ** Construction, teardown and the settings callback *)

(** The keys that the constructor registers [font_setting_changed] for,
    in the order of the calls of [registerChangedCallback]. *)
Definition registered_keys (currentMode : FontMode) : list string :=
  (if bool_decide (currentMode = FM_Standard) then
     ["font_size"; "font_path"; "font_shadow"; "font_shadow_alpha"]
   else if bool_decide (currentMode = FM_Fallback) then
     ["fallback_font_size"; "fallback_font_path"; "fallback_font_shadow";
      "fallback_font_shadow_alpha"]
   else [])
  ++ ["mono_font_path"; "mono_font_size"; "screen_dpi"; "gui_scaling"].

(** [FontEngine::FontEngine].  The settings and the GUI environment are
    the environment [E] and the skin is part of the state, so the three
    assertions on their pointers hold.  The loop stores
    [FONT_SIZE_UNSPECIFIED] in every default size (the cast to [FontMode]
    and back is taken to keep the value).  The result is the list of keys
    the callback is registered for. *)
Definition FontEngine_new (E : Env) : M (list string) :=
  modify (fun st => mkState (m_currentMode st) (pm_const (FONT_SIZE_UNSPECIFIED E))
                            (m_font_cache st) (skin_font st) (trace st)) ;;;
  readSettings E ;;;
  currentMode <- gets m_currentMode ;;
  ret (registered_keys currentMode).

(** The members before the body of the constructor runs: the maps of the
    cache are empty; the other members are overwritten before they are
    read. *)
Definition unconstructed (skin : option IGUIFont) : State :=
  mkState FM_Unspecified (pm_const 0) (pm_const ∅) skin [].

(** [FontEngine::~FontEngine] *)
Definition FontEngine_delete : M unit := cleanCache.


(** ** Requests that return *)

(** How a request for the normalized pair [(mode', size')] can return: the
    result and the state it leaves. *)
Inductive request_outcome (E : Env) (st : State) (mode' : FontMode) (size' : Z)
  : option IGUIFont -> State -> Prop :=
  | outcome_hit f :
      cached st mode' size' = Some f ->
      request_outcome E st mode' size' (Some f) st
  | outcome_truetype :
      simple_mode mode' = true ->
      cached st mode' size' = None ->
      classify E (simple_font_path E mode') = TrueType ->
      request_outcome E st mode' size' None
        (add_events [Call_initSimpleFont size' mode';
                     found_truetype (simple_font_path E mode')] st)
  | outcome_no_asset basename :
      simple_mode mode' = true ->
      cached st mode' size' = None ->
      classify E (simple_font_path E mode') = Assets basename ->
      first_font E (simple_attempts E basename (simple_font_path E mode') size') = None ->
      request_outcome E st mode' size' None
        (add_events
           (Call_initSimpleFont size' mode'
            :: flat_map (probe_events E)
                        (simple_attempts E basename (simple_font_path E mode') size'))
           st)
  | outcome_asset basename f :
      simple_mode mode' = true ->
      cached st mode' size' = None ->
      classify E (simple_font_path E mode') = Assets basename ->
      first_font E (simple_attempts E basename (simple_font_path E mode') size') = Some f ->
      request_outcome E st mode' size'
        (if bool_decide (simple_key E size' = size') then Some f else None)
        (with_font mode' (simple_key E size') f
           (add_events
              (Call_initSimpleFont size' mode'
               :: flat_map (probe_events E)
                    (tried E (simple_attempts E basename (simple_font_path E mode') size')))
              st))
  | outcome_outline f evs :
      outline_mode mode' = true ->
      cached st mode' size' = None ->
      scaled_size E size' <> 0 ->
      USE_FREETYPE E = true ->
      outline_attempt E (scaled_size E size') (outline_shadow E mode')
                      (outline_shadow_alpha E mode') (outline_paths E mode')
      = (evs, Some f) ->
      request_outcome E st mode' size' (Some f)
        (with_font mode' size' f (add_events (Call_initFont size' mode' :: evs) st)).

(** ** Counting in traces *)

Definition is_PathExists (e : event) : bool :=
  match e with PathExists _ => true | _ => false end.

Definition is_EnvGetFont (e : event) : bool :=
  match e with EnvGetFont _ => true | _ => false end.

(** The number of file-system probes in a list of events. *)
Definition path_probes (evs : list event) : nat :=
  length (filter (fun e => is_PathExists e = true) evs).

(** The entries of all tables of the cache. *)
Definition cache_entries (caches : per_mode (gmap Z IGUIFont)) : list (Z * IGUIFont) :=
  flat_map (fun cache : gmap Z IGUIFont => map_to_list cache) (pm_elems caches).

(** Every load of an asset in a list of events is the load of a name that
    exists. *)
Definition loads_only_existing (E : Env) (evs : list event) : bool :=
  forallb (fun e => match e with EnvGetFont p => fs_PathExists E p | _ => true end) evs.

(** A candidate name whose size is within [distance] of [S]. *)
Definition within_distance (basename : string) (S distance : Z) (path : string) : Prop :=
  exists offset ext,
    - distance <= offset <= distance
    /\ (ext = ".png" \/ ext = ".xml")
    /\ path = basename +:+ "_" +:+ show_u32 (u32 (S + offset)) +:+ ext.

(** ** Where cached fonts come from *)

(** A font that the backend made from one of the three candidate paths of
    [mode], at the pixel size of [key], which is not zero. *)
Definition made_by_backend (E : Env) (mode : FontMode) (key : Z) (font : IGUIFont) : Prop :=
  scaled_size E key <> 0
  /\ exists font_path,
       font_path ∈ outline_paths E mode
       /\ createTTFont E font_path (scaled_size E key) (outline_shadow E mode)
                       (outline_shadow_alpha E mode) = Some font.

(** A font that the GUI environment loaded from an asset that exists. *)
Definition loaded_asset (E : Env) (font : IGUIFont) : Prop :=
  exists path, fs_PathExists E path = true /\ env_getFont E path = Some font.

Definition cache_provenance (E : Env) (st : State) : Prop :=
  forall mode key font,
    cached st mode key = Some font ->
    if simple_mode mode then loaded_asset E font else made_by_backend E mode key font.

(** ** Measuring *)

(** The font that a measuring function uses after its request: the font of
    the request, or the font of the skin when the request returned null. *)
Definition measured_font (r : option IGUIFont) (st : State) : option IGUIFont :=
  match r with Some f => Some f | None => skin_font st end.

(** ** The skin *)

(** What [updateSkin] writes when the engine has no default font. *)
Definition default_font_not_found (E : Env) : event :=
  ErrorStream ("FontEngine: Default font file: " +:+
               newline_tab +:+ dquote +:+ settings_get E "font_path" +:+ dquote +:+
               newline_tab +:+ "required for current screen configuration was not found" +:+
               " or was invalid file format." +:+
               newline_tab +:+ "Using irrlicht default font.").

Definition text_height_info (E : Env) (font : IGUIFont) : event :=
  InfoStream ("text_height=" +:+ show_u32 (getDimension E font "Hello, world!").2).

(** The key of the settings that holds the default size of a mode. *)
Definition size_key (mode : FontMode) : string :=
  match mode with
  | FM_Fallback => "fallback_font_size"
  | FM_Mono | FM_SimpleMono => "mono_font_size"
  | _ => "font_size"
  end.


(** ** What a computation depends on *)

(** The state with another skin font and another log. *)
Definition reframe (skin : option IGUIFont) (tr : list event) (st : State) : State :=
  mkState (m_currentMode st) (m_default_size st) (m_font_cache st) skin tr.

Definition on_state {A} (g : State -> State) (r : Result A) : Result A :=
  match r with
  | Ok a st => Ok a (g st)
  | Fail f st => Fail f (g st)
  end.

(** A computation that neither reads nor writes the font of the skin and
    only appends to the log: with another skin font and another log it
    gives the same result, the same mode, sizes and cache, and appends
    the same events. *)
Definition skin_independent {A} (c : M A) : Prop :=
  forall st, exists evs, forall skin tr,
    c (reframe skin tr st) = on_state (reframe skin (tr ++ evs)) (c st).
(** * Properties *)

(** ** The monad and the trace *)

Lemma add_events_nil st : add_events [] st = st.
Proof. destruct st; unfold add_events; simpl. by rewrite app_nil_r. Qed.

Lemma add_events_app evs1 evs2 st :
  add_events evs2 (add_events evs1 st) = add_events (evs1 ++ evs2) st.
Proof. unfold add_events; simpl. by rewrite app_assoc. Qed.

Lemma m_font_cache_add_events evs st :
  m_font_cache (add_events evs st) = m_font_cache st.
Proof. reflexivity. Qed.

(** ** The tables and the cache *)

Lemma pm_get_is_Some {A} (t : per_mode A) mode :
  mode <> FM_Unspecified -> is_Some (pm_get t mode).
Proof. destruct mode; simpl; intros ?; by eauto. Qed.

Lemma pm_get_set_eq {A} (t : per_mode A) mode v :
  mode <> FM_Unspecified -> pm_get (pm_set t mode v) mode = Some v.
Proof. by destruct mode. Qed.

Lemma pm_get_set_ne {A} (t : per_mode A) mode mode' v :
  mode <> mode' -> pm_get (pm_set t mode v) mode' = pm_get t mode'.
Proof. by destruct mode, mode'. Qed.

Lemma simple_mode_cases mode :
  simple_mode mode = true -> mode = FM_Simple \/ mode = FM_SimpleMono.
Proof. rewrite /simple_mode. by intros ?%bool_decide_eq_true. Qed.

Lemma simple_mode_index {A} (t : per_mode A) mode :
  simple_mode mode = true -> is_Some (pm_get t mode).
Proof. intros [-> | ->]%simple_mode_cases; simpl; eauto. Qed.

Lemma outline_mode_cases mode :
  outline_mode mode = true ->
  mode = FM_Standard \/ mode = FM_Mono \/ mode = FM_Fallback.
Proof. rewrite /outline_mode. by intros ?%bool_decide_eq_true. Qed.

Lemma outline_mode_not_simple mode :
  outline_mode mode = true -> simple_mode mode = false /\ mode <> FM_Unspecified.
Proof. by intros [-> | [-> | ->]]%outline_mode_cases. Qed.

Lemma cached_Some st mode key font :
  cached st mode key = Some font ->
  exists cache, pm_get (m_font_cache st) mode = Some cache /\ cache !! key = Some font.
Proof.
  rewrite /cached. destruct (pm_get (m_font_cache st) mode) as [cache|]; last done.
  simpl. eauto.
Qed.

Lemma cached_None_lookup st mode key cache :
  pm_get (m_font_cache st) mode = Some cache ->
  cached st mode key = None -> cache !! key = None.
Proof. rewrite /cached. by intros ->. Qed.

Lemma cached_add_events evs st mode key :
  cached (add_events evs st) mode key = cached st mode key.
Proof. reflexivity. Qed.

Lemma cached_ext st st' mode key :
  m_font_cache st' = m_font_cache st -> cached st' mode key = cached st mode key.
Proof. rewrite /cached. by intros ->. Qed.

Lemma cached_with_font st mode key font mode' key' :
  mode <> FM_Unspecified ->
  cached (with_font mode key font st) mode' key' =
  if bool_decide (mode' = mode /\ key' = key) then Some font else cached st mode' key'.
Proof.
  intros Hmode. rewrite /cached /with_font /=.
  destruct (decide (mode' = mode)) as [->|Hne].
  - rewrite pm_get_set_eq //.
    destruct (pm_get_is_Some (m_font_cache st) mode Hmode) as [cache ->]. simpl.
    rewrite lookup_insert. destruct (decide (key = key')) as [->|Hk].
    + by rewrite bool_decide_true.
    + rewrite bool_decide_false //. by intros [_ ->].
  - rewrite pm_get_set_ne //.
    rewrite bool_decide_false //. by intros [? _].
Qed.

Lemma cache_assign_with_font mode key font st :
  is_Some (pm_get (m_font_cache st) mode) ->
  cache_assign mode key font st = Ok tt (with_font mode key font st).
Proof.
  intros [cache Hc]. by rewrite /cache_assign /bind /index Hc /modify /with_font Hc.
Qed.

Lemma in_order_NoDup (cache : gmap Z IGUIFont) : NoDup (in_order cache).*1.
Proof.
  rewrite /in_order merge_sort_Permutation. apply NoDup_fst_map_to_list.
Qed.

Lemma drops_cached st mode key font :
  cached st mode key = Some font -> Drop font ∈ drops (m_font_cache st).
Proof.
  intros (cache & Hcache & Hk)%cached_Some.
  rewrite /drops. apply list_elem_of_In, in_flat_map. exists cache. split.
  - rewrite /pm_elems. destruct mode; simpl in Hcache; try done;
      injection Hcache as <-; simpl; tauto.
  - apply list_elem_of_In.
    apply (list_elem_of_fmap_2 (fun kv : Z * IGUIFont => Drop kv.2) _ (key, font)).
    rewrite /in_order merge_sort_Permutation. by apply elem_of_map_to_list.
Qed.

(** ** Strings *)

Lemma find_last_of_from_bound c s i last p :
  find_last_of_from c s i last = Some p ->
  last = Some p \/ (i <= p < i + String.length s)%nat.
Proof.
  revert i last. induction s as [|a s IH]; intros i last; simpl.
  - by left.
  - intros [H|H]%IH.
    + destruct (Ascii.eqb a c); [right|left]; first (injection H as <-; lia). done.
    + right. lia.
Qed.

Lemma find_last_of_lt s c p :
  find_last_of s c = Some p -> (p < String.length s)%nat.
Proof. intros [?|?]%find_last_of_from_bound; [done|lia]. Qed.

Lemma classify_NoDot E font_path :
  find_last_of font_path "." = None -> classify E font_path = NoDot.
Proof. rewrite /classify. by intros ->. Qed.

(** ** The search loops against the list of candidates *)

Lemma tried_cons E p l :
  tried E (p :: l) = if loads E p then [p] else p :: tried E l.
Proof.
  rewrite /tried /=. destruct (loads E p); simpl; first done.
  by destruct (list_find _ l) as [[i q]|].
Qed.

Lemma first_font_cons E p l :
  first_font E (p :: l) = if loads E p then env_getFont E p else first_font E l.
Proof.
  rewrite /first_font /=. destruct (loads E p); simpl; first done.
  by destruct (list_find _ l) as [[i q]|].
Qed.

Lemma tried_no_font E l : first_font E l = None -> tried E l = l.
Proof.
  rewrite /first_font /tried.
  destruct (list_find _ l) as [[i p]|] eqn:Hfind; last done.
  apply list_find_Some in Hfind as (_ & Hl & _).
  rewrite /loads in Hl. apply andb_true_iff in Hl as [_ Hl%bool_decide_eq_true].
  intros Hnone. rewrite Hnone in Hl. by destruct Hl.
Qed.

(** Trying a list of names: the font of the first name that loads, and the
    probes of the names up to that one. *)
Lemma probe_all_spec E l st :
  probe_all E l st
  = Ok (first_font E l) (add_events (flat_map (probe_events E) (tried E l)) st).
Proof.
  revert st. induction l as [|p l IH]; intros st.
  - by rewrite /= /ret add_events_nil.
  - rewrite tried_cons first_font_cons /loads /=.
    rewrite /bind /call_PathExists /call_env_getFont /bind /emit /modify /ret /=.
    rewrite /probe_events.
    destruct (fs_PathExists E p) eqn:Hex; simpl.
    + destruct (env_getFont E p) as [f|] eqn:Hf; simpl.
      * rewrite ?Hex ?Hf. by rewrite !add_events_app.
      * rewrite IH !add_events_app. by rewrite ?Hex ?Hf.
    + rewrite IH !add_events_app. by rewrite ?Hex.
Qed.

Lemma probe_all_app E l1 l2 st :
  probe_all E (l1 ++ l2) st
  = (font <- probe_all E l1 ;;
     match font with Some f => ret (Some f) | None => probe_all E l2 end) st.
Proof.
  revert st. induction l1 as [|p l1 IH]; intros st; first done.
  rewrite /= /bind /=.
  destruct (negb (fs_PathExists E p)); first by rewrite IH.
  destruct (env_getFont E p); first done. by rewrite IH.
Qed.

Lemma simple_extensions_spec E basename S z st :
  simple_extensions E basename (u32 (S + zigzag_offset z)) font_extensions st
  = probe_all E (step_candidates basename S z) st.
Proof. done. Qed.

(** The offset as the code computes it, [offset * sign] with the sign from
    the lowest bit. *)
Lemma zigzag_offset_code z :
  0 <= z ->
  Z.shiftr z 1 * (if Z.land z 1 =? 0 then 1 else -1) = zigzag_offset z.
Proof.
  intros Hz. rewrite /zigzag_offset.
  change 1 with (Z.ones 1) at 2. rewrite Z.land_ones // Z.pow_1_r.
  rewrite Zodd_mod.
  destruct (Z.eqb_spec (z mod 2) 0) as [->|Hne]; simpl; first lia.
  have -> : z mod 2 = 1 by (pose proof (Z.mod_pos_bound z 2); lia).
  simpl. lia.
Qed.

Lemma zigzag_offset_even (k : nat) : zigzag_offset (2 * Z.of_nat k) = Z.of_nat k.
Proof.
  rewrite /zigzag_offset Z.shiftr_div_pow2; first done.
  rewrite Z.pow_1_r Z.odd_mul (Z.mul_comm 2) Z.div_mul; first done.
  cbn [Z.odd andb]. lia.
Qed.

Lemma zigzag_offset_odd (k : nat) : zigzag_offset (2 * Z.of_nat k + 1) = - Z.of_nat k.
Proof.
  rewrite /zigzag_offset Z.shiftr_div_pow2; first done.
  rewrite Z.pow_1_r (Z.add_comm _ 1) Z.odd_add_mul_2 (Z.mul_comm 2) Z.div_add; first done.
  change (1 `div` 2) with 0. cbn [Z.odd]. lia.
Qed.

Lemma candidates_from_S basename S from n :
  candidates_from basename S from (Datatypes.S n)
  = step_candidates basename S from ++ candidates_from basename S (from + 1) n.
Proof.
  rewrite /candidates_from /=. rewrite Z.add_0_r. f_equal. f_equal.
  rewrite -seq_shift flat_map_concat_map map_map -flat_map_concat_map.
  apply flat_map_ext => i. f_equal. lia.
Qed.

(** The outer loop from step [zoffset] on, with the fuel it needs. *)
Lemma simple_zigzag_spec E basename S fuel zoffset st :
  0 <= zoffset ->
  zoffset + Z.of_nat fuel = MAX_FONT_SIZE_OFFSET * 2 ->
  simple_zigzag E basename S fuel zoffset st
  = probe_all E (candidates_from basename S zoffset fuel) st.
Proof.
  revert zoffset st. induction fuel as [|fuel IH]; intros zoffset st Hz Hsum.
  - done.
  - rewrite candidates_from_S probe_all_app.
    cbn [simple_zigzag].
    have -> : (zoffset <? MAX_FONT_SIZE_OFFSET * 2) = true by (apply Z.ltb_lt; lia).
    rewrite /bind zigzag_offset_code // simple_extensions_spec.
    destruct (probe_all E (step_candidates basename S zoffset) st) as [[f|] st'|]; try done.
    apply IH; lia.
Qed.

Lemma simple_zigzag_candidates E basename S st :
  simple_zigzag E basename S (Z.to_nat (MAX_FONT_SIZE_OFFSET * 2)) 0 st
  = probe_all E (candidates basename S) st.
Proof. by apply simple_zigzag_spec. Qed.

(** ** The creation strategies *)

Arguments simple_zigzag : simpl never.
Arguments initFont_paths : simpl never.

(** The discrete-asset strategy, by the kind of the configured path. *)
Lemma initSimpleFont_spec E basesize mode st :
  simple_mode mode = true ->
  initSimpleFont E basesize mode st =
  let st0 := add_events [Call_initSimpleFont basesize mode] st in
  let font_path := simple_font_path E mode in
  match classify E font_path with
  | NoDot => Fail (OutOfRange "basic_string::substr") st0
  | TrueType => Ok tt (add_events [found_truetype font_path] st0)
  | Assets basename =>
      let attempts := simple_attempts E basename font_path basesize in
      let st1 := add_events (flat_map (probe_events E) (tried E attempts)) st0 in
      match first_font E attempts with
      | Some f => Ok tt (with_font mode (simple_key E basesize) f st1)
      | None => Ok tt st1
      end
  end.
Proof.
  intros Hmode. rewrite /initSimpleFont.
  have -> : bool_decide (mode = FM_Simple ∨ mode = FM_SimpleMono) = true by done.
  rewrite /bind /emit /modify /assert orb_true_r /ret.
  fold (simple_font_path E mode). set (font_path := simple_font_path E mode).
  rewrite /classify.
  destruct (find_last_of font_path ".") as [p|] eqn:Hp; last done.
  rewrite /substr_from. apply find_last_of_lt in Hp as Hlt.
  have -> : (p <=? String.length font_path)%nat = true by (apply Nat.leb_le; lia).
  set (ending := lowercase E _).
  destruct (bool_decide (ending = ".ttf")); first reflexivity.
  set (basename := if bool_decide (ending = ".xml" ∨ ending = ".png") then _ else _).
  have -> : (if bool_decide (ending = ".xml" ∨ ending = ".png")
             then Assets (String.substring 0 p font_path) else Assets font_path)
            = Assets basename.
  { subst basename. rewrite /substr_to.
    destruct (bool_decide (ending = ".xml" ∨ ending = ".png")); reflexivity. }
  fold (simple_key E basesize).
  rewrite simple_zigzag_candidates.
  cbv zeta. rewrite /simple_attempts.
  set (cands := candidates basename _).
  set (st0 := add_events [Call_initSimpleFont basesize mode] st).
  transitivity
    (match probe_all E (cands ++ [font_path]) st0 with
     | Ok (Some f) st1 => cache_assign mode (simple_key E basesize) f st1
     | Ok None st1 => Ok tt st1
     | Fail f st1 => Fail f st1
     end).
  - rewrite probe_all_app /bind.
    destruct (probe_all E cands st0) as [[f|] st'|]; try done.
    rewrite /= /bind /call_PathExists /call_env_getFont /bind /emit /modify /ret /=.
    destruct (fs_PathExists E font_path); simpl; last done.
    by destruct (env_getFont E font_path).
  - rewrite probe_all_spec.
    destruct (first_font E (cands ++ [font_path])); last done.
    rewrite cache_assign_with_font //. by apply simple_mode_index.
Qed.

(** The discrete-asset strategy has no call of [abort()]. *)
Lemma initSimpleFont_never_aborts E basesize mode st st' :
  simple_mode mode = true ->
  initSimpleFont E basesize mode st <> Fail Abort st'.
Proof.
  intros Hs. rewrite initSimpleFont_spec //. cbv zeta.
  destruct (classify E _); try done. by destruct (first_font E _).
Qed.

Lemma initFont_paths_cons E font_path rest size shadow alpha basesize mode :
  initFont_paths E (font_path :: rest) size shadow alpha basesize mode =
  (font <- call_createTTFont E font_path size shadow alpha ;;
   match font with
   | Some f => cache_assign mode basesize f ;;; ret true
   | None =>
       emit (cannot_load font_path) ;;;
       initFont_paths E rest size shadow alpha basesize mode
   end).
Proof. reflexivity. Qed.

Lemma initFont_paths_spec E paths size shadow alpha basesize mode st :
  is_Some (pm_get (m_font_cache st) mode) ->
  initFont_paths E paths size shadow alpha basesize mode st =
  let r := outline_attempt E size shadow alpha paths in
  match r.2 with
  | Some f => Ok true (with_font mode basesize f (add_events r.1 st))
  | None => Ok false (add_events r.1 st)
  end.
Proof.
  revert st. induction paths as [|p paths IH]; intros st Hidx.
  - by rewrite /= /ret add_events_nil.
  - rewrite initFont_paths_cons. cbn [outline_attempt].
    rewrite /bind /call_createTTFont /bind /emit /modify /ret.
    destruct (createTTFont E p size shadow alpha) as [f|]; cbn [fst snd]; cbv beta.
    + by rewrite cache_assign_with_font.
    + rewrite IH //. cbv zeta.
      destruct (outline_attempt E size shadow alpha paths).2;
        by rewrite !add_events_app.
Qed.

(** The outline strategy for a key that is not cached. *)
Lemma initFont_miss E basesize mode st cache :
  pm_get (m_font_cache st) mode = Some cache ->
  cache !! basesize = None ->
  initFont E basesize mode st =
  let st0 := add_events [Call_initFont basesize mode] st in
  let size := scaled_size E basesize in
  if negb (NDEBUG E) && bool_decide (basesize = FONT_SIZE_UNSPECIFIED E)
  then Fail (AssertionFailed "basesize != FONT_SIZE_UNSPECIFIED") st0
  else if size =? 0 then Fail Abort (add_events (size_zero E) st0)
  else if USE_FREETYPE E then
    let r := outline_attempt E size (outline_shadow E mode)
                             (outline_shadow_alpha E mode) (outline_paths E mode) in
    match r.2 with
    | Some f => Ok tt (with_font mode basesize f (add_events r.1 st0))
    | None => Fail Abort (add_events (r.1 ++ [no_valid_font]) st0)
    end
  else Fail Abort (add_events [no_freetype] st0).
Proof.
  intros Hc Hk. rewrite /initFont /bind /emit /modify /assert /ret.
  have Hmode : mode <> FM_Unspecified by (intros ->; done).
  rewrite (bool_decide_true _ Hmode) orb_true_r bool_decide_not.
  fold (outline_paths E mode) (outline_shadow E mode) (outline_shadow_alpha E mode).
  destruct (NDEBUG E), (bool_decide (basesize = FONT_SIZE_UNSPECIFIED E));
    cbn [orb negb andb]; try done;
    (rewrite /index m_font_cache_add_events Hc Hk;
     destruct (scaled_size E basesize =? 0); first (by rewrite /fail !add_events_app);
     destruct (USE_FREETYPE E); last done;
     rewrite initFont_paths_spec; first (by rewrite m_font_cache_add_events Hc);
     cbv zeta;
     destruct (outline_attempt E (scaled_size E basesize) (outline_shadow E mode)
                 (outline_shadow_alpha E mode) (outline_paths E mode)) as [evs [f|]];
     cbn [fst snd]; first done;
     by rewrite /fail !add_events_app).
Qed.

(** ** Requests against the cache *)

(** A request is its normalized request. *)
Lemma getFont_resolve E font_size mode st :
  getFont E font_size mode st =
  match resolve E st font_size mode with
  | Some (mode', size') => lookup_or_create E size' mode' st
  | None => Fail ArrayOutOfBounds st
  end.
Proof.
  rewrite /getFont /resolve /normalized_size /lookup_or_create /bind /gets /index /ret.
  destruct (m_currentMode st) eqn:Hcur, mode; cbn;
    destruct (bool_decide (font_size = FONT_SIZE_UNSPECIFIED E)); cbn; try done.
Qed.

Lemma resolve_ext E st st' font_size mode :
  m_currentMode st' = m_currentMode st ->
  m_default_size st' = m_default_size st ->
  resolve E st' font_size mode = resolve E st font_size mode.
Proof. rewrite /resolve /normalized_size. by intros -> ->. Qed.

Lemma lookup_or_create_hit E key mode st font :
  cached st mode key = Some font ->
  lookup_or_create E key mode st = Ok (Some font) st.
Proof.
  intros (cache & Hc & Hk)%cached_Some.
  by rewrite /lookup_or_create /bind /index Hc Hk /= Hc /ret Hk.
Qed.

Lemma lookup_or_create_miss E key mode st cache :
  pm_get (m_font_cache st) mode = Some cache ->
  cache !! key = None ->
  lookup_or_create E key mode st =
  match (if simple_mode mode then initSimpleFont E key mode
         else initFont E key mode) st with
  | Ok _ st' => Ok (cached st' mode key) st'
  | Fail f st' => Fail f st'
  end.
Proof.
  intros Hc Hk. rewrite /lookup_or_create /bind /index Hc Hk.
  destruct (if simple_mode mode then _ else _) as [[] st'|f st']; last done.
  rewrite /cached /ret.
  destruct (pm_get (m_font_cache st') mode) as [cache'|] eqn:Hc'; simpl; first done.
  destruct mode; simpl in *; done.
Qed.

Lemma getFont_hit E font_size mode st mode' size' font :
  resolve E st font_size mode = Some (mode', size') ->
  cached st mode' size' = Some font ->
  getFont E font_size mode st = Ok (Some font) st.
Proof.
  intros Hres Hc. rewrite getFont_resolve Hres. by apply lookup_or_create_hit.
Qed.

Lemma getFont_miss E font_size mode st mode' size' :
  resolve E st font_size mode = Some (mode', size') ->
  mode' <> FM_Unspecified ->
  cached st mode' size' = None ->
  getFont E font_size mode st =
  match (if simple_mode mode' then initSimpleFont E size' mode'
         else initFont E size' mode') st with
  | Ok _ st' => Ok (cached st' mode' size') st'
  | Fail f st' => Fail f st'
  end.
Proof.
  intros Hres Hmode Hc. rewrite getFont_resolve Hres.
  destruct (pm_get_is_Some (m_font_cache st) mode' Hmode) as [cache Hcache].
  eapply lookup_or_create_miss; first done. by eapply cached_None_lookup.
Qed.

Lemma getFont_miss_outline E font_size mode st mode' size' :
  resolve E st font_size mode = Some (mode', size') ->
  outline_mode mode' = true ->
  cached st mode' size' = None ->
  getFont E font_size mode st =
  match initFont E size' mode' st with
  | Ok _ st' => Ok (cached st' mode' size') st'
  | Fail f st' => Fail f st'
  end.
Proof.
  intros Hres [Hs Hm]%outline_mode_not_simple Hc.
  by rewrite (getFont_miss _ _ _ _ _ _ Hres Hm Hc) Hs.
Qed.

Lemma getFont_miss_simple E font_size mode st mode' size' :
  resolve E st font_size mode = Some (mode', size') ->
  simple_mode mode' = true ->
  cached st mode' size' = None ->
  getFont E font_size mode st =
  match initSimpleFont E size' mode' st with
  | Ok _ st' => Ok (cached st' mode' size') st'
  | Fail f st' => Fail f st'
  end.
Proof.
  intros Hres Hs Hc.
  rewrite (getFont_miss _ _ _ _ _ _ Hres) ?Hs //.
  by destruct (simple_mode_cases _ Hs) as [-> | ->].
Qed.

(** What a request leaves behind when it returns: the mode and the default
    sizes are untouched, and the cache gained at most the entry of the
    request. *)
Lemma getFont_returns E font_size mode st r st' :
  getFont E font_size mode st = Ok r st' ->
  exists mode' size' evs,
    resolve E st font_size mode = Some (mode', size')
    /\ mode' <> FM_Unspecified
    /\ r = cached st' mode' size'
    /\ (st' = add_events evs st
        \/ exists font, st' = with_font mode' (request_key E mode' size') font
                                        (add_events evs st)).
Proof.
  intros Hget.
  destruct (resolve E st font_size mode) as [[mode' size']|] eqn:Hres;
    last by rewrite getFont_resolve Hres in Hget.
  exists mode', size'.
  destruct (decide (mode' = FM_Unspecified)) as [->|Hmode].
  { by rewrite getFont_resolve Hres /lookup_or_create /bind /index in Hget. }
  destruct (cached st mode' size') as [font|] eqn:Hc.
  - rewrite (getFont_hit _ _ _ _ _ _ _ Hres Hc) in Hget. injection Hget as <- <-.
    exists []. rewrite add_events_nil. eauto.
  - rewrite (getFont_miss _ _ _ _ _ _ Hres Hmode Hc) in Hget.
    destruct (pm_get_is_Some (m_font_cache st) mode' Hmode) as [cache Hcache].
    pose proof (cached_None_lookup _ _ _ _ Hcache Hc) as Hk.
    rewrite /request_key.
    destruct (simple_mode mode') eqn:Hsimple.
    + rewrite initSimpleFont_spec // in Hget. cbv zeta in Hget.
      destruct (classify E (simple_font_path E mode')) as [| |basename]; first done.
      * injection Hget as <- <-. rewrite add_events_app. eexists. split_and!; eauto.
      * destruct (first_font E _) as [f|]; injection Hget as <- <-;
          rewrite add_events_app; eexists; split_and!; eauto.
    + rewrite (initFont_miss _ _ _ _ _ Hcache Hk) in Hget. cbv zeta in Hget.
      destruct (negb _ && _); first done.
      destruct (_ =? 0); first done.
      destruct (USE_FREETYPE E); last done.
      destruct (outline_attempt E _ _ _ _) as [evs [f|]]; cbn [fst snd] in Hget; last done.
      injection Hget as <- <-. rewrite add_events_app. eexists; split_and!; eauto.
Qed.

(** After a request, an entry of the cache is the entry of the request or
    was there before. *)
Lemma getFont_returns_cached E font_size mode st r st' m k f :
  getFont E font_size mode st = Ok r st' ->
  cached st' m k = Some f ->
  cached st m k = Some f
  \/ exists mode' size', resolve E st font_size mode = Some (mode', size')
                         /\ m = mode' /\ k = request_key E mode' size'.
Proof.
  intros (mode' & size' & evs & Hres & Hm & _ & [-> | [font ->]])%getFont_returns.
  - rewrite cached_add_events. by left.
  - rewrite cached_with_font // cached_add_events.
    case_bool_decide as Hmk; last by left.
    destruct Hmk as [-> ->]. right. eauto.
Qed.

Lemma getFont_returns_state E font_size mode st r st' :
  getFont E font_size mode st = Ok r st' ->
  m_currentMode st' = m_currentMode st
  /\ m_default_size st' = m_default_size st
  /\ exists evs, trace st' = trace st ++ evs.
Proof.
  intros (mode' & size' & evs & _ & _ & _ & [-> | [font ->]])%getFont_returns;
    split_and!; try done; by exists evs.
Qed.

(** A request that misses starts with the call of the strategy. *)
Lemma getFont_miss_trace E font_size mode st mode' size' r st' :
  resolve E st font_size mode = Some (mode', size') ->
  mode' <> FM_Unspecified ->
  cached st mode' size' = None ->
  getFont E font_size mode st = Ok r st' ->
  exists rest, trace st' = trace st ++ creation_call mode' size' :: rest.
Proof.
  intros Hres Hm Hc Hget.
  rewrite (getFont_miss _ _ _ _ _ _ Hres Hm Hc) in Hget.
  destruct (pm_get_is_Some (m_font_cache st) mode' Hm) as [cache Hcache].
  pose proof (cached_None_lookup _ _ _ _ Hcache Hc) as Hk.
  rewrite /creation_call.
  destruct (simple_mode mode') eqn:Hsimple.
  - rewrite initSimpleFont_spec // in Hget. cbv zeta in Hget.
    destruct (classify E (simple_font_path E mode')) as [| |basename]; first done.
    + injection Hget as <- <-. eexists. by rewrite /= -app_assoc.
    + destruct (first_font E _) as [f|]; injection Hget as <- <-;
        eexists; by rewrite /= -app_assoc.
  - rewrite (initFont_miss _ _ _ _ _ Hcache Hk) in Hget. cbv zeta in Hget.
    destruct (negb _ && _); first done.
    destruct (_ =? 0); first done.
    destruct (USE_FREETYPE E); last done.
    destruct (outline_attempt E _ _ _ _) as [evs [f|]]; cbn [fst snd] in Hget; last done.
    injection Hget as <- <-. eexists. by rewrite /= -app_assoc.
Qed.

(** ** Configuration changes *)

(** Reading the settings is: recompute, flush, then the eager request and
    the update of the skin. *)
Lemma readSettings_flushed E st :
  readSettings E st = (updateFontCache E ;;; updateSkin E) (flushed E st).
Proof.
  rewrite /readSettings /flushed /configured_mode /configured_sizes /freetype_enabled.
  rewrite /cleanCache /bind /set_default_size /set_currentMode /index /modify /gets.
  by destruct (USE_FREETYPE E && g_settings_getBool E "freetype").
Qed.

(** The update of the skin is one request; it touches the font of the skin
    and the trace only. *)
Lemma updateSkin_returns E st u st' :
  updateSkin E st = Ok u st' ->
  exists r st1 evs,
    getFont E (FONT_SIZE_UNSPECIFIED E) FM_Unspecified st = Ok r st1
    /\ m_currentMode st' = m_currentMode st1
    /\ m_default_size st' = m_default_size st1
    /\ m_font_cache st' = m_font_cache st1
    /\ trace st' = trace st1 ++ evs.
Proof.
  rewrite /updateSkin /bind.
  destruct (getFont E _ _ st) as [r st1|]; last done.
  intros Hrest. exists r, st1.
  destruct r as [f|].
  - rewrite /set_skin_font /modify /gets /FATAL_ERROR_IF /= /emit /modify /= in Hrest.
    injection Hrest as <- <-. eexists. split_and!; try done. simpl. by rewrite -app_assoc.
  - rewrite /emit /modify /gets /FATAL_ERROR_IF /= in Hrest.
    destruct (skin_font st1); simpl in Hrest; last done.
    rewrite /emit /modify /= in Hrest.
    injection Hrest as <- <-. eexists. split_and!; try done. simpl. by rewrite -app_assoc.
Qed.

Lemma configured_mode_cases E :
  configured_mode E = FM_Fallback \/ configured_mode E = FM_Standard
  \/ (configured_mode E = FM_Simple /\ freetype_enabled E = false).
Proof.
  rewrite /configured_mode.
  destruct (freetype_enabled E); [destruct (needs_fallback_font E)|]; auto.
Qed.

Lemma cached_flushed E st mode key : cached (flushed E st) mode key = None.
Proof. by destruct mode. Qed.

(** The sizes of the concrete environments are 16-bit values. *)
Lemma demo_env_u16 compiled enabled strings sizes assets ttf scale key :
  settings_getU16 (demo_env compiled enabled strings sizes assets ttf scale) key
  <> FONT_SIZE_UNSPECIFIED (demo_env compiled enabled strings sizes assets ttf scale).
Proof.
  cbn [settings_getU16 FONT_SIZE_UNSPECIFIED demo_env].
  pose proof (Z.mod_pos_bound (default 0 (assoc key sizes)) 65536). lia.
Qed.

(** ** The nearest-match search (C1) *)

(** C1 — Every call of [initSimpleFont] (in a mode that its assertion
    admits, as every call from [getFont] is) whose configured path has a
    '.' and a suffix that does not lowercase to .ttf computes the effective
    pixel size S and tries the asset names in exactly this order: for
    z = 0, 1, ..., 19 the offset is (−1 if z is odd else +1) × (z >> 1),
    and for each offset the extensions .png then .xml, the name being
    basename + "_" + (S + offset) + extension with the sum taken as an
    [unsigned int]; basename is the stem that the call computes from the
    configured path and S is the scaled size of its base size.  The first
    name that exists and loads ends both loops: the call leaves in the
    trace the probes of the candidates up to that one, and of no later
    one, and caches its font; only when no candidate loads is the
    configured path itself tried.  So +k (step 2k) is tried before −k
    (step 2k+1), and an .xml asset of a step wins over every asset of a
    later step.  The other calls end before S is computed and try no name
    at all: a .ttf path is reported, a path without '.' makes [substr]
    throw. *)
Theorem zigzag_search_order E basesize mode st :
  simple_mode mode = true ->
  let font_path := simple_font_path E mode in
  let S := scaled_size E (simple_key E basesize) in
  let st0 := add_events [Call_initSimpleFont basesize mode] st in
  match classify E font_path with
  | Assets basename =>
      let attempts := candidates basename S ++ [font_path] in
      let st1 := add_events (flat_map (probe_events E) (tried E attempts)) st0 in
      initSimpleFont E basesize mode st
      = Ok tt (match first_font E attempts with
               | Some f => with_font mode (simple_key E basesize) f st1
               | None => st1
               end)
      /\ candidates basename S
         = flat_map (fun z => [candidate_name basename S z ".png";
                               candidate_name basename S z ".xml"])
                    (Z.of_nat <$> seq 0 20)
  | TrueType =>
      initSimpleFont E basesize mode st = Ok tt (add_events [found_truetype font_path] st0)
  | NoDot =>
      initSimpleFont E basesize mode st = Fail (OutOfRange "basic_string::substr") st0
  end
  /\ (forall k : nat, zigzag_offset (2 * Z.of_nat k) = Z.of_nat k
                      /\ zigzag_offset (2 * Z.of_nat k + 1) = - Z.of_nat k).
Proof.
  intros Hmode font_path S st0. split.
  - rewrite initSimpleFont_spec //. cbv zeta. rewrite -/font_path -/st0.
    destruct (classify E font_path) as [| |basename]; try done.
    split; last reflexivity.
    rewrite /simple_attempts -/S. by destruct (first_font E _).
  - intros k. split; [apply zigzag_offset_even | apply zigzag_offset_odd].
Qed.

(** With .xml at +3 and .png at −3 of size 12, a call for size 12 probes the
    names up to lucida_15.png, which is missing, then finds and loads
    lucida_15.xml and caches its font; lucida_9.png is never probed. *)
Lemma zigzag_search_order_witness :
  exists st',
    initSimpleFont lucida_15_9_env 12 FM_Simple (demo_state FM_Simple 12) = Ok tt st'
    /\ cached st' FM_Simple 12 = Some 7%N
    /\ last (trace st') = Some (VerboseStream "FontEngine: found font: fonts/lucida_15.xml")
    /\ PathExists "fonts/lucida_9.png" ∉ trace st'.
Proof.
  destruct (zigzag_search_order lucida_15_9_env 12 FM_Simple
              (demo_state FM_Simple 12) eq_refl) as [[Hrun _] _].
  eexists. split; [exact Hrun|].
  split; [vm_compute; reflexivity|]. split; [vm_compute; reflexivity|].
  rewrite list_elem_of_In. vm_compute. intuition discriminate.
Defined.

(** The smaller distance wins: with assets at −3 and +4 only, the search
    from 12 ends at −3. *)
Example nearer_size_is_selected :
  first_font lucida_9_16_env (candidates "fonts/lucida" 12) = Some 8%N
  /\ last (tried lucida_9_16_env (candidates "fonts/lucida" 12))
     = Some "fonts/lucida_9.png".
Proof. split; vm_compute; reflexivity. Qed.

(** At equal distance the larger size is met first, whatever its
    extension: .xml at +3 wins over .png at −3. *)
Example larger_size_is_met_first :
  first_font lucida_15_9_env (candidates "fonts/lucida" 12) = Some 7%N
  /\ last (tried lucida_15_9_env (candidates "fonts/lucida" 12))
     = Some "fonts/lucida_15.xml".
Proof. split; vm_compute; reflexivity. Qed.

(** The sum is an [unsigned int]: below size 0 the names wrap around. *)
Example names_wrap_around :
  candidates "font" 0 !! 6%nat = Some "font_4294967295.png".
Proof. vm_compute. reflexivity. Qed.

(** A request runs the search: asked for size 12 in outline mode Standard,
    an engine in mode Simple serves it from lucida_9.png, the nearest
    asset. *)
Example request_runs_the_search :
  exists st',
    getFont lucida_9_16_env 12 FM_Standard (demo_state FM_Simple 16) = Ok (Some 8%N) st'
    /\ last (trace st') = Some (VerboseStream "FontEngine: found font: fonts/lucida_9.png").
Proof. eexists. split; vm_compute; reflexivity. Qed.

(** ** Idempotence of requests (C2) *)

(** C2 (as amended) — If [getFont(s, m)] returns a font, a second call
    with the same arguments and no configuration change in between is a
    pure cache lookup: it returns the same font and leaves the whole state,
    trace included, as it is, so neither creation strategy is called again.
    Each table of the cache holds every key once. *)
Theorem getFont_cached_is_pure_lookup E font_size mode st font st1 :
  getFont E font_size mode st = Ok (Some font) st1 ->
  getFont E font_size mode st1 = Ok (Some font) st1
  /\ (forall m cache, pm_get (m_font_cache st1) m = Some cache ->
                      NoDup (in_order cache).*1).
Proof.
  intros Hget. split; last (intros; apply in_order_NoDup).
  destruct (getFont_returns _ _ _ _ _ _ Hget)
    as (mode' & size' & evs & Hres & Hmode & Hr & Hst).
  eapply getFont_hit; last by symmetry; apply Hr.
  rewrite -Hres. apply resolve_ext; destruct Hst as [-> | [f ->]]; done.
Qed.

Lemma getFont_cached_is_pure_lookup_witness :
  let st1 :=
    with_font FM_Simple 12 7%N
      (add_events [Call_initSimpleFont 12 FM_Simple;
                   PathExists "fonts/lucida_12.png";
                   EnvGetFont "fonts/lucida_12.png";
                   VerboseStream "FontEngine: found font: fonts/lucida_12.png"]
                  (demo_state FM_Simple 16)) in
  getFont lucida12_env 12 FM_Standard (demo_state FM_Simple 16) = Ok (Some 7%N) st1
  /\ getFont lucida12_env 12 FM_Standard st1 = Ok (Some 7%N) st1.
Proof.
  intros st1.
  assert (H : getFont lucida12_env 12 FM_Standard (demo_state FM_Simple 16)
              = Ok (Some 7%N) st1) by (vm_compute; reflexivity).
  split; [exact H|].
  exact (proj1 (getFont_cached_is_pure_lookup lucida12_env 12 FM_Standard _ _ _ H)).
Defined.

(** Against C2 as stated: with no asset installed the first request returns
    null and caches nothing, and the second, identical request runs the
    discrete-asset strategy a second time. *)
Lemma getFont_failed_creation_is_retried :
  match getFont bare_env 12 FM_Standard (demo_state FM_Simple 16) with
  | Ok r1 st1 =>
      match getFont bare_env 12 FM_Standard st1 with
      | Ok r2 st2 =>
          r1 = None /\ r2 = None
          /\ creation_calls (trace st1) = 1%nat
          /\ creation_calls (trace st2) = 2%nat
          /\ st2 <> st1
      | Fail _ _ => False
      end
  | Fail _ _ => False
  end.
Proof. vm_compute. split_and!; try reflexivity. discriminate. Qed.

(** ** Zero effective size (C3) *)

(** C3 (as amended) — A request that misses the cache and is dispatched
    to the outline strategy (normalized mode Standard, Mono or Fallback)
    with an effective pixel size of 0 never returns: the process is
    aborted after the size-zero diagnostic (or, in a build with assertions
    and an unspecified base size, by the failed assertion of
    [initFont]). *)
Theorem outline_zero_size_is_fatal E font_size mode st mode' size' :
  resolve E st font_size mode = Some (mode', size') ->
  outline_mode mode' = true ->
  cached st mode' size' = None ->
  scaled_size E size' = 0 ->
  getFont E font_size mode st =
  if negb (NDEBUG E) && bool_decide (size' = FONT_SIZE_UNSPECIFIED E)
  then Fail (AssertionFailed "basesize != FONT_SIZE_UNSPECIFIED")
            (add_events [Call_initFont size' mode'] st)
  else Fail Abort (add_events (Call_initFont size' mode' :: size_zero E) st).
Proof.
  intros Hres Hout Hc Hzero.
  rewrite (getFont_miss_outline _ _ _ _ _ _ Hres Hout Hc).
  destruct (outline_mode_not_simple _ Hout) as [_ Hm].
  destruct (pm_get_is_Some (m_font_cache st) mode' Hm) as [cache Hcache].
  rewrite (initFont_miss _ _ _ _ _ Hcache (cached_None_lookup _ _ _ _ Hcache Hc)).
  cbv zeta. rewrite Hzero. destruct (negb _ && _); first done.
  by rewrite add_events_app.
Qed.

Lemma outline_zero_size_is_fatal_witness :
  scaled_size tiny_outline_env 12 = 0
  /\ getFont tiny_outline_env 12 FM_Mono (demo_state FM_Standard 16)
     = Fail Abort (add_events (Call_initFont 12 FM_Mono :: size_zero tiny_outline_env)
                              (demo_state FM_Standard 16)).
Proof.
  split; [reflexivity|].
  apply (outline_zero_size_is_fatal tiny_outline_env 12 FM_Mono
           (demo_state FM_Standard 16) FM_Mono 12); reflexivity.
Defined.

(** Against C3 as stated: in mode Simple an effective size of 0 is not
    checked; the request searches the assets at size 0 and returns null. *)
Lemma simple_zero_size_returns_null :
  scaled_size tiny_simple_env 12 = 0
  /\ match getFont tiny_simple_env 12 FM_Standard (demo_state FM_Simple 16) with
     | Ok None _ => True
     | _ => False
     end.
Proof. vm_compute. done. Qed.

(** ** Normalization of requests (C4) *)

(** C4 — [getFont] first normalizes the mode: [FM_Unspecified] becomes
    the current mode; otherwise, when the current mode is [FM_Simple],
    [FM_Mono] and [FM_SimpleMono] become [FM_SimpleMono] and every other
    mode becomes [FM_Simple].  Only then is an unspecified size replaced by
    the default size of the normalized mode, and the request goes on with
    the normalized pair.  The downgrade cannot fail: its result is always
    a valid index of both tables. *)
Theorem getFont_normalizes E font_size mode st :
  getFont E font_size mode st
  = (let mode' := normalized_mode (m_currentMode st) mode in
     match normalized_size E st mode' font_size with
     | Some size' => lookup_or_create E size' mode' st
     | None => Fail ArrayOutOfBounds st
     end)
  /\ normalized_mode (m_currentMode st) FM_Unspecified = m_currentMode st
  /\ (forall requested,
        normalized_mode FM_Simple requested
        = if bool_decide (requested = FM_Mono \/ requested = FM_SimpleMono)
          then FM_SimpleMono else FM_Simple)
  /\ (forall requested,
        is_Some (pm_get (m_default_size st) (normalized_mode FM_Simple requested))
        /\ is_Some (pm_get (m_font_cache st) (normalized_mode FM_Simple requested))).
Proof.
  split_and!.
  - rewrite getFont_resolve /resolve. cbv zeta.
    by destruct (normalized_size E st _ font_size).
  - done.
  - by intros [].
  - intros []; split; simpl; eauto.
Qed.

(** ** Failure of the discrete-asset strategy (C5) *)

(** The part of the discrete-asset strategy that fails by returning: no
    font found means no entry, a null result and a fresh search on the
    next request. *)
Lemma simple_failure_is_not_cached E font_size mode st mode' size' basename :
  let font_path := simple_font_path E mode' in
  let attempts := simple_attempts E basename font_path size' in
  let evs := Call_initSimpleFont size' mode' :: flat_map (probe_events E) attempts in
  resolve E st font_size mode = Some (mode', size') ->
  simple_mode mode' = true ->
  cached st mode' size' = None ->
  classify E font_path = Assets basename ->
  first_font E attempts = None ->
  getFont E font_size mode st = Ok None (add_events evs st)
  /\ m_font_cache (add_events evs st) = m_font_cache st
  /\ getFont E font_size mode (add_events evs st)
     = Ok None (add_events evs (add_events evs st)).
Proof.
  intros font_path attempts evs Hres Hs Hc Hcl Hfont.
  have Hstep : forall st0,
    resolve E st0 font_size mode = Some (mode', size') ->
    cached st0 mode' size' = None ->
    getFont E font_size mode st0 = Ok None (add_events evs st0).
  { intros st0 Hres0 Hc0.
    rewrite (getFont_miss_simple _ _ _ _ _ _ Hres0 Hs Hc0) initSimpleFont_spec //.
    cbv zeta. fold font_path. rewrite Hcl. fold attempts.
    by rewrite Hfont (tried_no_font _ _ Hfont) add_events_app cached_add_events Hc0. }
  split_and!; [by apply Hstep | done | apply Hstep; last done].
  by rewrite -Hres.
Qed.

(** A configured path without any '.' ends every missed request of a
    discrete-asset mode in the exception of [substr]. *)
Lemma dotless_path_throws E font_size mode st mode' size' :
  resolve E st font_size mode = Some (mode', size') ->
  simple_mode mode' = true ->
  cached st mode' size' = None ->
  find_last_of (simple_font_path E mode') "." = None ->
  getFont E font_size mode st
  = Fail (OutOfRange "basic_string::substr")
         (add_events [Call_initSimpleFont size' mode'] st).
Proof.
  intros Hres Hs Hc Hdot.
  rewrite (getFont_miss_simple _ _ _ _ _ _ Hres Hs Hc) initSimpleFont_spec //.
  cbv zeta. by rewrite classify_NoDot.
Qed.

(** C5 — The claim: when the discrete-asset strategy finds no font,
    nothing is cached, [getFont] returns null rather than raising or
    aborting, and the strategy never ends the process.  The code at a
    configured path without any '.': [find_last_of] returns [npos],
    [substr(npos)] throws [std::out_of_range], and the request ends in that
    exception instead of returning null. *)
Theorem dotless_font_path_throws_out_of_range :
  find_last_of (simple_font_path dotless_env FM_Simple) "." = None
  /\ getFont dotless_env 12 FM_Unspecified (demo_state FM_Simple 16)
     = Fail (OutOfRange "basic_string::substr")
            (add_events [Call_initSimpleFont 12 FM_Simple] (demo_state FM_Simple 16)).
Proof. split; vm_compute; reflexivity. Qed.

(** ** The outline strategy (C6) *)

(** C6 (as amended) — A request that reaches the outline strategy with a
    nonzero effective size tries exactly three font paths in order: (a) the
    configured path under the prefix of the mode (fallback_ for Fallback,
    mono_ for Mono, none for Standard), (b) the configured
    fallback_font_path, (c) the default value of the key of (a); each at the
    effective pixel size with the shadow parameters under the same prefix.
    The first success is stored under (mode, requested size) and returned;
    if all three fail, or the backend is not compiled in, the process is
    aborted after a diagnostic. *)
Theorem outline_candidates_in_order E font_size mode st mode' size' :
  resolve E st font_size mode = Some (mode', size') ->
  outline_mode mode' = true ->
  cached st mode' size' = None ->
  size' <> FONT_SIZE_UNSPECIFIED E ->
  scaled_size E size' <> 0 ->
  let prefix := match mode' with
                | FM_Fallback => "fallback_" | FM_Mono => "mono_" | _ => ""
                end in
  let a := settings_get E (prefix +:+ "font_path") in
  let b := settings_get E "fallback_font_path" in
  let c := settings_getDefault E (prefix +:+ "font_path") in
  let size := scaled_size E size' in
  let shadow := default 0 (g_settings_getU16NoEx E (prefix +:+ "font_shadow")) in
  let alpha := default 0 (g_settings_getU16NoEx E (prefix +:+ "font_shadow_alpha")) in
  let create p := CreateTTFont p size shadow alpha in
  let st0 := add_events [Call_initFont size' mode'] st in
  getFont E font_size mode st =
  if USE_FREETYPE E then
    match createTTFont E a size shadow alpha,
          createTTFont E b size shadow alpha,
          createTTFont E c size shadow alpha with
    | Some f, _, _ =>
        Ok (Some f) (with_font mode' size' f (add_events [create a] st0))
    | None, Some f, _ =>
        Ok (Some f) (with_font mode' size' f
                       (add_events [create a; cannot_load a; create b] st0))
    | None, None, Some f =>
        Ok (Some f) (with_font mode' size' f
                       (add_events [create a; cannot_load a; create b; cannot_load b;
                                    create c] st0))
    | None, None, None =>
        Fail Abort (add_events [create a; cannot_load a; create b; cannot_load b;
                                create c; cannot_load c; no_valid_font] st0)
    end
  else Fail Abort (add_events [no_freetype] st0).
Proof.
  intros Hres Hout Hc Hsize Hnz.
  rewrite (getFont_miss_outline _ _ _ _ _ _ Hres Hout Hc).
  destruct (outline_mode_not_simple _ Hout) as [_ Hm].
  destruct (pm_get_is_Some (m_font_cache st) mode' Hm) as [cache Hcache].
  rewrite (initFont_miss _ _ _ _ _ Hcache (cached_None_lookup _ _ _ _ Hcache Hc)).
  cbv zeta. rewrite (bool_decide_false _ Hsize) andb_false_r.
  apply Z.eqb_neq in Hnz as ->.
  destruct (USE_FREETYPE E); last done.
  have Hprefix : setting_prefix_of mode'
                 = match mode' with
                   | FM_Fallback => "fallback_" | FM_Mono => "mono_" | _ => ""
                   end
    by destruct (outline_mode_cases _ Hout) as [-> | [-> | ->]].
  rewrite /outline_paths /outline_shadow /outline_shadow_alpha Hprefix.
  cbn [outline_attempt].
  repeat (destruct (createTTFont E _ _ _ _); cbn [fst snd]);
    rewrite ?cached_with_font // ?bool_decide_true //.
Qed.

Lemma outline_candidates_in_order_witness :
  let st0 := add_events [Call_initFont 12 FM_Mono] (demo_state FM_Standard 16) in
  getFont fallback_only_env 12 FM_Mono (demo_state FM_Standard 16)
  = Ok (Some 5%N)
       (with_font FM_Mono 12 5%N
          (add_events [CreateTTFont "fonts/Cousine-Regular.ttf" 12 0 0;
                       cannot_load "fonts/Cousine-Regular.ttf";
                       CreateTTFont "fonts/DroidSansFallbackFull.ttf" 12 0 0] st0)).
Proof.
  apply (outline_candidates_in_order fallback_only_env 12 FM_Mono
           (demo_state FM_Standard 16) FM_Mono 12); try reflexivity.
  - vm_compute. discriminate.
  - vm_compute. discriminate.
Defined.

(** Against C6 as stated: at an effective size of 0 the outline strategy
    tries no path at all, although the configured font file would load; it
    aborts before the loop. *)
Lemma outline_zero_size_tries_no_path :
  scaled_size tiny_installed_env 12 = 0
  /\ createTTFont tiny_installed_env "fonts/Arimo-Regular.ttf" 0 1 127 = Some 4%N
  /\ getFont tiny_installed_env 12 FM_Standard (demo_state FM_Standard 16)
     = Fail Abort
            (add_events [Call_initFont 12 FM_Standard;
                         ErrorStream "FontEngine: attempt to use font size 0";
                         ErrorStream "  display density: 1"]
                        (demo_state FM_Standard 16)).
Proof. split_and!; vm_compute; reflexivity. Qed.

(** ** Configuration changes (C7) *)

(** C7 (as amended) — [readSettings] recomputes the active mode
    (Fallback or Standard, by the locale's flag, when the backend is
    compiled in and enabled; Simple otherwise) and the default sizes (all
    five entries when the backend is enabled, only the entries of Simple
    and SimpleMono otherwise), drops every cached font of every mode and
    clears all tables, and only then creates the default font of the
    active mode, eagerly.  When it returns, the trace shows the drops
    followed by the call of the creation strategy for (active mode,
    default size), and every entry of the cache is the one of (active
    mode, default size): every other entry is gone until it is requested
    again.  Configured sizes are 16-bit values, never the unspecified
    sentinel. *)
Theorem readSettings_flushes_and_recreates_default E st :
  (forall key, settings_getU16 E key <> FONT_SIZE_UNSPECIFIED E) ->
  readSettings E st = (updateFontCache E ;;; updateSkin E) (flushed E st)
  /\ (forall m k f, cached st m k = Some f -> Drop f ∈ drops (m_font_cache st))
  /\ (forall m k, cached (flushed E st) m k = None)
  /\ (forall u st', readSettings E st = Ok u st' ->
        m_currentMode st' = configured_mode E
        /\ m_default_size st' = configured_sizes E (m_default_size st)
        /\ (exists d rest,
              pm_get (m_default_size st') (configured_mode E) = Some d
              /\ trace st' = trace st ++ drops (m_font_cache st)
                             ++ creation_call (configured_mode E) d :: rest)
        /\ (forall m k f, cached st' m k = Some f ->
              m = configured_mode E /\ pm_get (m_default_size st') m = Some k)).
Proof.
  intros Hu16. split_and!.
  - apply readSettings_flushed.
  - apply drops_cached.
  - apply cached_flushed.
  - intros u st'. rewrite readSettings_flushed /bind /updateFontCache /bind.
    set (unspecified := FONT_SIZE_UNSPECIFIED E).
    destruct (getFont E unspecified FM_Unspecified (flushed E st)) as [r1 st1|] eqn:Hget1;
      last done.
    rewrite /ret. intros Hskin.
    destruct (updateSkin_returns _ _ _ _ Hskin)
      as (r2 & st2 & evs2 & Hget2 & Hmode2 & Hsizes2 & Hcache2 & Htrace2).
    destruct (getFont_returns_state _ _ _ _ _ _ Hget1) as (Hmode1 & Hsizes1 & evs1 & Htrace1).
    destruct (getFont_returns_state _ _ _ _ _ _ Hget2) as (Hmode2' & Hsizes2' & evs2' & Htrace2').
    have Hmode : m_currentMode st' = configured_mode E by rewrite Hmode2 Hmode2' Hmode1.
    have Hsizes : m_default_size st' = configured_sizes E (m_default_size st)
      by rewrite Hsizes2 Hsizes2' Hsizes1.
    have Hm : configured_mode E <> FM_Unspecified
      by destruct (configured_mode_cases E) as [-> | [-> | [-> _]]].
    destruct (pm_get_is_Some (configured_sizes E (m_default_size st)) _ Hm) as [d Hd].
    have Hres1 : resolve E (flushed E st) unspecified FM_Unspecified
                 = Some (configured_mode E, d).
    { by rewrite /resolve /normalized_size bool_decide_true //= Hd. }
    have Hres2 : resolve E st1 unspecified FM_Unspecified = Some (configured_mode E, d).
    { by rewrite -Hres1; apply resolve_ext. }
    have Hkey : request_key E (configured_mode E) d = d.
    { rewrite /request_key /simple_key.
      destruct (configured_mode_cases E) as [Hc | [Hc | [Hc Hoff]]];
        rewrite Hc in Hd |- *; try done.
      rewrite /configured_sizes Hoff /= in Hd. injection Hd as <-.
      by rewrite bool_decide_false. }
    split_and!; try done.
    + exists d. rewrite Hsizes.
      destruct (getFont_miss_trace _ _ _ _ _ _ _ _ Hres1 Hm (cached_flushed _ _ _ _) Hget1)
        as [rest Hrest].
      exists (rest ++ evs2' ++ evs2). split; first done.
      rewrite Htrace2 Htrace2' Hrest /= -!app_assoc. done.
    + intros m k f Hc. rewrite (cached_ext _ _ _ _ Hcache2) in Hc.
      rewrite Hsizes.
      destruct (getFont_returns_cached _ _ _ _ _ _ _ _ _ Hget2 Hc)
        as [Hc1 | (mode' & size' & Hres & -> & ->)].
      * destruct (getFont_returns_cached _ _ _ _ _ _ _ _ _ Hget1 Hc1)
          as [Hc0 | (mode' & size' & Hres & -> & ->)].
        -- by rewrite cached_flushed in Hc0.
        -- rewrite Hres1 in Hres. injection Hres as <- <-. by rewrite Hkey.
      * rewrite Hres2 in Hres. injection Hres as <- <-. by rewrite Hkey.
Qed.

Lemma readSettings_flushes_and_recreates_default_witness :
  let E := fallback_only_env in
  let st := demo_state FM_Simple 33 in
  (forall key, settings_getU16 E key <> FONT_SIZE_UNSPECIFIED E)
  /\ exists st',
       readSettings E st = Ok tt st'
       /\ m_currentMode st' = FM_Standard
       /\ cached st' FM_Standard 16 = Some 5%N
       /\ (forall m k f, cached st' m k = Some f ->
              m = FM_Standard /\ pm_get (m_default_size st') m = Some k).
Proof.
  intros E st.
  assert (Hu16 : forall key, settings_getU16 E key <> FONT_SIZE_UNSPECIFIED E)
    by (intros key; apply demo_env_u16).
  split; [exact Hu16|].
  destruct (readSettings_flushes_and_recreates_default E st Hu16)
    as (_ & _ & _ & Hpost).
  destruct (readSettings E st) as [[] st'|f st'] eqn:Hrun;
    [|vm_compute in Hrun; discriminate].
  exists st'. destruct (Hpost tt st' eq_refl) as (Hmode & _ & _ & Honly).
  split; [reflexivity|]. split; [exact Hmode|].
  split; [|exact Honly].
  vm_compute in Hrun. injection Hrun as <-. reflexivity.
Defined.

(** Against C7 as stated: with the backend disabled the default sizes of
    Standard, Mono and Fallback are not recomputed; an engine that ran
    with size 33 keeps 33 there although the configuration now says 16. *)
Lemma readSettings_keeps_outline_sizes :
  freetype_enabled bare_env = false
  /\ match readSettings bare_env (demo_state FM_Standard 33) with
     | Ok _ st' =>
         m_default_size st' <> sizes_from_configuration bare_env
         /\ pm_get (m_default_size st') FM_Standard = Some 33
         /\ pm_get (sizes_from_configuration bare_env) FM_Standard = Some 16
     | Fail _ _ => False
     end.
Proof. vm_compute. split_and!; try reflexivity. discriminate. Qed.

(** ** Line height (C8) *)

(** C8 — [getLineHeight(s, m)] is [getTextHeight(s, m)] plus the kerning
    height of the same font, as an [unsigned int]: both resolve the font by
    the same [getFont] call, falling back to the font of the skin when it
    returns null, and both end in the same state (or fail alike). *)
Theorem line_height_is_text_height_plus_kerning E font_size mode st :
  let sample := "Some unimportant example String" in
  match getFont E font_size mode st with
  | Ok font st' =>
      match (match font with Some f => Some f | None => skin_font st' end) with
      | Some f =>
          getTextHeight E font_size mode st = Ok (getDimension E f sample).2 st'
          /\ getLineHeight E font_size mode st
             = Ok (u32 ((getDimension E f sample).2 + getKerningHeight E f)) st'
      | None =>
          getTextHeight E font_size mode st
          = Fail Abort (add_events [ErrorStream "Could not get skin font"] st')
          /\ getLineHeight E font_size mode st
             = Fail Abort (add_events [ErrorStream "Could not get font"] st')
      end
  | Fail f st' =>
      getTextHeight E font_size mode st = Fail f st'
      /\ getLineHeight E font_size mode st = Fail f st'
  end.
Proof.
  rewrite /getTextHeight /getLineHeight /bind /skin_fallback /FATAL_ERROR_IF.
  destruct (getFont E font_size mode st) as [[f|] st'|]; try done.
  rewrite /gets. by destruct (skin_font st').
Qed.

(** ** TrueType paths without the backend (C9) *)

(** C9 — In mode Simple or SimpleMono, when the suffix of the configured
    font path from its last '.' lowercases to ".ttf", the discrete-asset
    strategy returns at once: the trace shows its call and the error
    message only (no probe of any asset name, no load of the path itself),
    the cache is unchanged and [getFont] returns null. *)
Theorem truetype_path_in_simple_mode E font_size mode st mode' size' pos_dot :
  let font_path := simple_font_path E mode' in
  resolve E st font_size mode = Some (mode', size') ->
  simple_mode mode' = true ->
  cached st mode' size' = None ->
  find_last_of font_path "." = Some pos_dot ->
  lowercase E (String.substring pos_dot (String.length font_path - pos_dot) font_path)
  = ".ttf" ->
  getFont E font_size mode st
  = Ok None (add_events [Call_initSimpleFont size' mode'; found_truetype font_path] st)
  /\ m_font_cache (add_events [Call_initSimpleFont size' mode'; found_truetype font_path] st)
     = m_font_cache st.
Proof.
  intros font_path Hres Hs Hc Hdot Hend. split; last done.
  rewrite (getFont_miss_simple _ _ _ _ _ _ Hres Hs Hc) initSimpleFont_spec //.
  cbv zeta. rewrite /classify. fold font_path. rewrite Hdot Hend bool_decide_true //.
  by rewrite add_events_app cached_add_events Hc.
Qed.

Lemma truetype_path_in_simple_mode_witness :
  find_last_of (simple_font_path truetype_env FM_Simple) "." = Some 19%nat
  /\ lowercase truetype_env ".TTF" = ".ttf"
  /\ getFont truetype_env 12 FM_Standard (demo_state FM_Simple 16)
     = Ok None (add_events [Call_initSimpleFont 12 FM_Simple;
                            found_truetype "fonts/Arimo-Regular.TTF"]
                           (demo_state FM_Simple 16)).
Proof.
  split_and!; [reflexivity | reflexivity |].
  apply (truetype_path_in_simple_mode truetype_env 12 FM_Standard
           (demo_state FM_Simple 16) FM_Simple 12 19%nat); reflexivity.
Defined.

(** ** The unspecified default size (C10) *)

(** C10 — When [getFont] is called with the unspecified size, the
    normalized mode is Simple or SimpleMono and the default size of that
    mode is itself the unspecified sentinel, the discrete-asset strategy
    searches at the compiled-in default font size and stores the font it
    loads under that size, while the final lookup of [getFont] still uses
    the sentinel as key: [getFont] returns null although a font has just
    been created and cached. *)
Theorem unspecified_default_size_is_cached_elsewhere E mode st mode' basename font :
  let unspecified := FONT_SIZE_UNSPECIFIED E in
  let font_path := simple_font_path E mode' in
  let attempts :=
    candidates basename (scaled_size E (DEFAULT_FONT_SIZE E)) ++ [font_path] in
  normalized_mode (m_currentMode st) mode = mode' ->
  simple_mode mode' = true ->
  pm_get (m_default_size st) mode' = Some unspecified ->
  cached st mode' unspecified = None ->
  DEFAULT_FONT_SIZE E <> unspecified ->
  classify E font_path = Assets basename ->
  first_font E attempts = Some font ->
  let st' :=
    with_font mode' (DEFAULT_FONT_SIZE E) font
              (add_events (Call_initSimpleFont unspecified mode'
                           :: flat_map (probe_events E) (tried E attempts)) st) in
  getFont E unspecified mode st = Ok None st'
  /\ cached st' mode' (DEFAULT_FONT_SIZE E) = Some font
  /\ cached st' mode' unspecified = None.
Proof.
  intros unspecified font_path attempts Hmode Hs Hdef Hc Hne Hcl Hfont st'.
  have Hm : mode' <> FM_Unspecified by destruct (simple_mode_cases _ Hs) as [-> | ->].
  have Hres : resolve E st unspecified mode = Some (mode', unspecified).
  { by rewrite /resolve Hmode /normalized_size bool_decide_true // Hdef. }
  have Hkey : simple_key E unspecified = DEFAULT_FONT_SIZE E
    by rewrite /simple_key bool_decide_true.
  have Hmiss : cached st' mode' unspecified = None.
  { rewrite /st' cached_with_font // bool_decide_false; first by intros [_ ?].
    by rewrite cached_add_events. }
  split_and!; try done.
  - rewrite (getFont_miss_simple _ _ _ _ _ _ Hres Hs Hc) initSimpleFont_spec //.
    cbv zeta. fold font_path. rewrite Hcl /simple_attempts Hkey.
    fold attempts. by rewrite Hfont add_events_app -/st' Hmiss.
  - by rewrite /st' cached_with_font // bool_decide_true.
Qed.

Lemma unspecified_default_size_is_cached_elsewhere_witness :
  let E := lucida10_env in
  let st := fresh_state E FM_Simple in
  exists st',
    getFont E (FONT_SIZE_UNSPECIFIED E) FM_Unspecified st = Ok None st'
    /\ cached st' FM_Simple (DEFAULT_FONT_SIZE E) = Some 7%N
    /\ cached st' FM_Simple (FONT_SIZE_UNSPECIFIED E) = None.
Proof.
  intros E st. eexists.
  apply (unspecified_default_size_is_cached_elsewhere E FM_Unspecified st
           FM_Simple "fonts/lucida" 7%N); try reflexivity.
  vm_compute. discriminate.
Defined.

(** * Further properties *)

(** ** Requests that return *)

Lemma outline_or_simple mode :
  mode <> FM_Unspecified -> simple_mode mode = false -> outline_mode mode = true.
Proof. by destruct mode. Qed.

(** A request returns exactly in the ways of [request_outcome]. *)
Lemma getFont_Ok_outcome E font_size mode st r st' :
  getFont E font_size mode st = Ok r st' ->
  exists mode' size',
    resolve E st font_size mode = Some (mode', size')
    /\ mode' <> FM_Unspecified
    /\ request_outcome E st mode' size' r st'.
Proof.
  intros Hget.
  destruct (resolve E st font_size mode) as [[mode' size']|] eqn:Hres;
    last by rewrite getFont_resolve Hres in Hget.
  exists mode', size'.
  destruct (decide (mode' = FM_Unspecified)) as [->|Hmode].
  { by rewrite getFont_resolve Hres /lookup_or_create /bind /index in Hget. }
  split_and!; try done.
  destruct (cached st mode' size') as [font|] eqn:Hc.
  - rewrite (getFont_hit _ _ _ _ _ _ _ Hres Hc) in Hget. injection Hget as <- <-.
    by constructor.
  - rewrite (getFont_miss _ _ _ _ _ _ Hres Hmode Hc) in Hget.
    destruct (pm_get_is_Some (m_font_cache st) mode' Hmode) as [cache Hcache].
    pose proof (cached_None_lookup _ _ _ _ Hcache Hc) as Hk.
    destruct (simple_mode mode') eqn:Hsimple.
    + rewrite initSimpleFont_spec // in Hget. cbv zeta in Hget.
      destruct (classify E (simple_font_path E mode')) as [| |basename] eqn:Hcl;
        first done.
      * injection Hget as <- <-.
        rewrite add_events_app cached_add_events Hc. by constructor.
      * destruct (first_font E _) as [f|] eqn:Hfont; injection Hget as <- <-.
        -- rewrite add_events_app cached_with_font // cached_add_events Hc.
           have -> : (if bool_decide (mode' = mode' /\ size' = simple_key E size')
                      then Some f else None)
                     = (if bool_decide (simple_key E size' = size')
                        then Some f else None).
           { destruct (decide (simple_key E size' = size')) as [Hkey|Hkey].
             - rewrite !bool_decide_true //.
             - rewrite !bool_decide_false //. by intros [_ ?]. }
           by constructor.
        -- rewrite add_events_app cached_add_events Hc (tried_no_font _ _ Hfont).
           by econstructor.
    + rewrite (initFont_miss _ _ _ _ _ Hcache Hk) in Hget. cbv zeta in Hget.
      destruct (negb _ && _); first done.
      destruct (Z.eqb_spec (scaled_size E size') 0) as [|Hnz]; first done.
      destruct (USE_FREETYPE E) eqn:Hft; last done.
      destruct (outline_attempt E _ _ _ _) as [evs [f|]] eqn:Hatt;
        cbn [fst snd] in Hget; last done.
      injection Hget as <- <-.
      rewrite add_events_app cached_with_font // bool_decide_true //.
      constructor; try done. by apply outline_or_simple.
Qed.

(** ** Flushing the cache *)

Lemma drops_empty : drops (pm_const ∅) = [].
Proof. reflexivity. Qed.

Lemma drops_entries caches :
  drops caches ≡ₚ map (fun kv : Z * IGUIFont => Drop kv.2) (cache_entries caches).
Proof.
  rewrite /drops /cache_entries /pm_elems /= !app_nil_r !map_app.
  repeat apply Permutation_app; apply Permutation_map, merge_sort_Permutation.
Qed.

Lemma cleanCache_spec st :
  cleanCache st
  = Ok tt (mkState (m_currentMode st) (m_default_size st) (pm_const ∅) (skin_font st)
                   (trace st ++ drops (m_font_cache st))).
Proof. reflexivity. Qed.

(** X1 — [cleanCache] always returns.  It calls [drop()] once for every entry
    of every table and for nothing else, leaves every table empty, and
    touches neither the mode, the default sizes nor the font of the
    skin. *)
Theorem cleanCache_drops_every_entry_once st :
  exists st',
    cleanCache st = Ok tt st'
    /\ trace st' = trace st ++ drops (m_font_cache st)
    /\ drops (m_font_cache st)
       ≡ₚ map (fun kv : Z * IGUIFont => Drop kv.2) (cache_entries (m_font_cache st))
    /\ (forall m k, cached st' m k = None)
    /\ m_currentMode st' = m_currentMode st
    /\ m_default_size st' = m_default_size st
    /\ skin_font st' = skin_font st.
Proof.
  eexists. rewrite cleanCache_spec. split_and!; try done.
  - apply drops_entries.
  - by intros [] k.
Qed.

(** X2 — Flushing twice is flushing once: a [cleanCache] right after a
    [cleanCache] calls no [drop()] and leaves the state, trace included, as
    it is. *)
Theorem cleanCache_twice st :
  (cleanCache ;;; cleanCache) st = cleanCache st
  /\ exists st1, cleanCache st = Ok tt st1 /\ cleanCache st1 = Ok tt st1.
Proof.
  split.
  - rewrite /bind !cleanCache_spec.
    cbn [m_font_cache trace m_currentMode m_default_size skin_font].
    by rewrite drops_empty app_nil_r.
  - eexists. split; first apply cleanCache_spec.
    rewrite cleanCache_spec.
    cbn [m_font_cache trace m_currentMode m_default_size skin_font].
    by rewrite drops_empty app_nil_r.
Qed.

(** ** The frame of a request *)

Lemma cached_with_font_ne st mode key font mode' key' :
  mode <> FM_Unspecified ->
  (mode', key') <> (mode, key) ->
  cached (with_font mode key font st) mode' key' = cached st mode' key'.
Proof.
  intros Hmode Hne. rewrite cached_with_font // bool_decide_false //.
  intros [-> ->]. done.
Qed.

Lemma cached_with_font_is_Some st mode key font mode' key' :
  mode <> FM_Unspecified ->
  is_Some (cached st mode' key') ->
  is_Some (cached (with_font mode key font st) mode' key').
Proof.
  intros Hmode Hsome. rewrite cached_with_font //. by case_bool_decide.
Qed.

Lemma request_key_simple E mode size :
  simple_mode mode = true -> request_key E mode size = simple_key E size.
Proof. rewrite /request_key. by intros ->. Qed.

Lemma request_key_outline E mode size :
  outline_mode mode = true -> request_key E mode size = size.
Proof. intros [Hs _]%outline_mode_not_simple. by rewrite /request_key Hs. Qed.

(** X3 — A request that returns hands out exactly what the cache then holds
    under its normalized key.  It changes neither the mode, the default
    sizes nor the font of the skin, only appends to the trace, removes no
    entry of the cache and leaves every entry other than the one of its
    own key as it was. *)
Theorem getFont_frame E font_size mode st r st' :
  getFont E font_size mode st = Ok r st' ->
  exists mode' size',
    resolve E st font_size mode = Some (mode', size')
    /\ r = cached st' mode' size'
    /\ m_currentMode st' = m_currentMode st
    /\ m_default_size st' = m_default_size st
    /\ skin_font st' = skin_font st
    /\ (exists evs, trace st' = trace st ++ evs)
    /\ (forall m k, is_Some (cached st m k) -> is_Some (cached st' m k))
    /\ (forall m k, (m, k) <> (mode', request_key E mode' size') ->
                    cached st' m k = cached st m k).
Proof.
  intros (mode' & size' & Hres & Hmode & Hout)%getFont_Ok_outcome.
  exists mode', size'. split; first done.
  destruct Hout as [f Hc | Hs Hc Hcl | basename Hs Hc Hcl Hfont
                   | basename f Hs Hc Hcl Hfont | f evs Ho Hc Hnz Hft Hatt].
  - split_and!; try done. by exists []; rewrite app_nil_r.
  - split_and!; try done. by eexists.
  - split_and!; try done. by eexists.
  - split_and!; try done.
    + rewrite cached_with_font; first done. rewrite cached_add_events Hc.
      destruct (decide (simple_key E size' = size')) as [Hk|Hk].
      * rewrite !bool_decide_true //.
      * rewrite !bool_decide_false //. by intros [_ ?].
    + by eexists.
    + intros m k Hsome. by apply cached_with_font_is_Some.
    + intros m k Hne. rewrite request_key_simple // in Hne.
      by rewrite cached_with_font_ne.
  - split_and!; try done.
    + rewrite cached_with_font; first done. by rewrite bool_decide_true.
    + by eexists.
    + intros m k Hsome. by apply cached_with_font_is_Some.
    + intros m k Hne. rewrite request_key_outline // in Hne.
      by rewrite cached_with_font_ne.
Qed.

Lemma getFont_frame_witness :
  exists st',
    getFont lucida12_env 12 FM_Standard (demo_state FM_Simple 16) = Ok (Some 7%N) st'
    /\ cached st' FM_Simple 12 = Some 7%N
    /\ cached st' FM_SimpleMono 12 = None.
Proof.
  destruct (getFont lucida12_env 12 FM_Standard (demo_state FM_Simple 16))
    as [r st'|f st'] eqn:Hrun; [|vm_compute in Hrun; discriminate].
  exists st'.
  destruct (getFont_frame _ _ _ _ _ _ Hrun)
    as (mode' & size' & Hres & Hr & _ & _ & _ & _ & _ & Hother).
  vm_compute in Hres. injection Hres as <- <-.
  assert (Hr7 : r = Some 7%N) by (vm_compute in Hrun; injection Hrun as <- _; reflexivity).
  split; [by rewrite Hr7|]. split; [by rewrite -Hr -Hr7|].
  assert (Hne : (FM_SimpleMono, 12) <> (FM_Simple, request_key lucida12_env FM_Simple 12))
    by discriminate.
  rewrite (Hother _ _ Hne). reflexivity.
Defined.

(** X4 — A request in an outline mode never returns null: when it returns,
    it returns the font that the cache holds under its key. *)
Theorem outline_request_never_null E font_size mode st mode' size' r st' :
  resolve E st font_size mode = Some (mode', size') ->
  outline_mode mode' = true ->
  getFont E font_size mode st = Ok r st' ->
  exists f, r = Some f /\ cached st' mode' size' = Some f.
Proof.
  intros Hres Ho Hget.
  destruct (getFont_Ok_outcome _ _ _ _ _ _ Hget) as (m' & s' & Hres' & _ & Hout).
  rewrite Hres in Hres'. injection Hres' as <- <-.
  destruct (outline_mode_not_simple _ Ho) as [Hns Hm].
  destruct Hout as [f Hc | Hs Hc Hcl | basename Hs Hc Hcl Hfont
                   | basename f Hs Hc Hcl Hfont | f evs _ Hc Hnz Hft Hatt];
    try congruence.
  - by exists f.
  - exists f. split; first done. rewrite cached_with_font; first done.
    by rewrite bool_decide_true.
Qed.

Lemma outline_request_never_null_witness :
  exists st',
    getFont fallback_only_env 12 FM_Mono (demo_state FM_Standard 16) = Ok (Some 5%N) st'
    /\ cached st' FM_Mono 12 = Some 5%N.
Proof.
  destruct (getFont fallback_only_env 12 FM_Mono (demo_state FM_Standard 16))
    as [r st'|f st'] eqn:Hrun; [|vm_compute in Hrun; discriminate].
  exists st'.
  destruct (outline_request_never_null fallback_only_env 12 FM_Mono
              (demo_state FM_Standard 16) FM_Mono 12 r st' eq_refl eq_refl Hrun)
    as (f & Hr & Hc).
  assert (Hr5 : r = Some 5%N) by (vm_compute in Hrun; injection Hrun as <- _; reflexivity).
  split; [by rewrite Hr5|]. rewrite Hc. congruence.
Defined.

(** X5 — While the current mode is Simple no request, whatever its mode and
    size, aborts the process, fails an assertion or indexes a table out of
    bounds: it returns, or it ends in the [std::out_of_range] that
    [substr] throws for a path without '.'. *)
Theorem simple_engine_never_aborts E font_size mode st :
  m_currentMode st = FM_Simple ->
  match getFont E font_size mode st with
  | Ok _ _ => True
  | Fail f _ => f = OutOfRange "basic_string::substr"
  end.
Proof.
  intros Hcur.
  set (mode' := normalized_mode FM_Simple mode).
  have Hs : simple_mode mode' = true by rewrite /mode'; destruct mode.
  destruct (simple_mode_index (m_default_size st) mode' Hs) as [d Hd].
  set (size' := if bool_decide (font_size = FONT_SIZE_UNSPECIFIED E) then d else font_size).
  have Hres : resolve E st font_size mode = Some (mode', size').
  { rewrite /resolve Hcur -/mode' /normalized_size /size'.
    case_bool_decide; by rewrite ?Hd. }
  destruct (cached st mode' size') as [f|] eqn:Hc.
  - by rewrite (getFont_hit _ _ _ _ _ _ _ Hres Hc).
  - rewrite (getFont_miss_simple _ _ _ _ _ _ Hres Hs Hc) initSimpleFont_spec //.
    cbv zeta. destruct (classify E _); try done. by destruct (first_font E _).
Qed.

Lemma simple_engine_never_aborts_witness :
  m_currentMode (demo_state FM_Simple 16) = FM_Simple
  /\ match getFont dotless_env 12 FM_Fallback (demo_state FM_Simple 16) with
     | Ok _ _ => True
     | Fail f _ => f = OutOfRange "basic_string::substr"
     end.
Proof.
  split; [reflexivity|].
  exact (simple_engine_never_aborts dotless_env 12 FM_Fallback
           (demo_state FM_Simple 16) eq_refl).
Defined.

(** ** The probes of the discrete-asset strategy *)

Lemma path_probes_app evs1 evs2 :
  path_probes (evs1 ++ evs2) = (path_probes evs1 + path_probes evs2)%nat.
Proof. by rewrite /path_probes filter_app length_app. Qed.

Lemma path_probes_probe E p : path_probes (probe_events E p) = 1%nat.
Proof.
  rewrite /probe_events. destruct (fs_PathExists E p); last done.
  by destruct (env_getFont E p).
Qed.

Lemma path_probes_probe_events E l :
  path_probes (flat_map (probe_events E) l) = length l.
Proof.
  induction l as [|p l IH]; first done.
  cbn [flat_map length]. by rewrite path_probes_app path_probes_probe IH.
Qed.

Lemma loads_only_existing_app E evs1 evs2 :
  loads_only_existing E (evs1 ++ evs2)
  = loads_only_existing E evs1 && loads_only_existing E evs2.
Proof. apply forallb_app. Qed.

Lemma loads_only_existing_probe E p : loads_only_existing E (probe_events E p) = true.
Proof.
  rewrite /probe_events. destruct (fs_PathExists E p) eqn:Hex; last done.
  rewrite /= Hex. by destruct (env_getFont E p).
Qed.

Lemma loads_only_existing_probe_events E l :
  loads_only_existing E (flat_map (probe_events E) l) = true.
Proof.
  induction l as [|p l IH]; first done.
  cbn [flat_map]. by rewrite loads_only_existing_app loads_only_existing_probe IH.
Qed.

Lemma outline_attempt_no_probe E size shadow alpha paths :
  path_probes (outline_attempt E size shadow alpha paths).1 = 0%nat
  /\ loads_only_existing E (outline_attempt E size shadow alpha paths).1 = true.
Proof.
  induction paths as [|p paths [IH1 IH2]]; first done.
  cbn [outline_attempt]. by destruct (createTTFont E p size shadow alpha).
Qed.

Lemma tried_length E l : (length (tried E l) <= length l)%nat.
Proof.
  rewrite /tried. destruct (list_find _ l) as [[i p]|]; last done.
  rewrite length_take. lia.
Qed.

Lemma simple_attempts_length E basename font_path basesize :
  length (simple_attempts E basename font_path basesize) = 41%nat.
Proof. reflexivity. Qed.

(** X6 — A request that returns probes the file system at most 41 times (the
    40 candidate names and the configured path), and every asset that it
    asks the GUI environment to load is one that it has found to exist. *)
Theorem getFont_probes_are_bounded E font_size mode st r st' :
  getFont E font_size mode st = Ok r st' ->
  exists evs,
    trace st' = trace st ++ evs
    /\ (path_probes evs <= 41)%nat
    /\ loads_only_existing E evs = true.
Proof.
  intros (mode' & size' & Hres & Hmode & Hout)%getFont_Ok_outcome.
  destruct Hout as [f Hc | Hs Hc Hcl | basename Hs Hc Hcl Hfont
                   | basename f Hs Hc Hcl Hfont | f evs Ho Hc Hnz Hft Hatt].
  - exists []. rewrite app_nil_r. split_and!; try done. rewrite /path_probes /=. lia.
  - eexists. split; first done. split; last done. rewrite /path_probes /=. lia.
  - eexists. split; first done.
    change (Call_initSimpleFont size' mode' :: ?x) with ([Call_initSimpleFont size' mode'] ++ x).
    rewrite path_probes_app loads_only_existing_app path_probes_probe_events
            loads_only_existing_probe_events simple_attempts_length.
    split; last done. rewrite /path_probes /=. lia.
  - eexists. split; first done.
    change (Call_initSimpleFont size' mode' :: ?x) with ([Call_initSimpleFont size' mode'] ++ x).
    rewrite path_probes_app loads_only_existing_app path_probes_probe_events
            loads_only_existing_probe_events.
    split; last done.
    pose proof (tried_length E (simple_attempts E basename (simple_font_path E mode') size')) as Hle.
    rewrite simple_attempts_length in Hle. rewrite /path_probes /=. lia.
  - eexists. split; first done.
    destruct (outline_attempt_no_probe E (scaled_size E size') (outline_shadow E mode')
                (outline_shadow_alpha E mode') (outline_paths E mode')) as [H1 H2].
    rewrite Hatt /= in H1 H2.
    change (Call_initFont size' mode' :: evs) with ([Call_initFont size' mode'] ++ evs).
    rewrite path_probes_app loads_only_existing_app H1 H2.
    split; last done. rewrite /path_probes /=. lia.
Qed.

Lemma getFont_probes_are_bounded_witness :
  exists st' evs,
    getFont bare_env 12 FM_Standard (demo_state FM_Simple 16) = Ok None st'
    /\ trace st' = trace (demo_state FM_Simple 16) ++ evs
    /\ (path_probes evs <= 41)%nat
    /\ loads_only_existing bare_env evs = true.
Proof.
  destruct (getFont bare_env 12 FM_Standard (demo_state FM_Simple 16))
    as [r st'|f st'] eqn:Hrun; [|vm_compute in Hrun; discriminate].
  destruct (getFont_probes_are_bounded _ _ _ _ _ _ Hrun) as (evs & Htr & Hle & Hex).
  exists st', evs.
  assert (Hr : r = None) by (vm_compute in Hrun; injection Hrun as <- _; reflexivity).
  rewrite Hr. repeat split; assumption.
Defined.

(** ** The reach of the search *)

Lemma zigzag_offset_bound (i : nat) :
  (i < 20)%nat -> -9 <= zigzag_offset (Z.of_nat i) <= 9.
Proof.
  intros Hi. do 20 (destruct i as [|i]; first by vm_compute). lia.
Qed.

Lemma candidates_within_distance basename S :
  Forall (within_distance basename S 9) (candidates basename S).
Proof.
  rewrite /candidates /candidates_from. apply Forall_forall. intros p Hin%list_elem_of_In.
  apply in_flat_map in Hin as (i & Hi%in_seq & Hp).
  rewrite Z.add_0_l /step_candidates /candidate_name in Hp.
  exists (zigzag_offset (Z.of_nat i)).
  destruct Hp as [<- | [<- | []]]; [exists ".png" | exists ".xml"];
    (split; [apply zigzag_offset_bound; lia | split; [auto | done]]).
Qed.

Lemma tried_sublist E l : tried E l `prefix_of` l.
Proof.
  rewrite /tried. destruct (list_find _ l) as [[i p]|]; last done.
  apply prefix_take.
Qed.

(** X7 — The search never looks further than 9 sizes away from the
    effective size: every name it probes is basename_N.png or
    basename_N.xml with N within 9 of S (as [unsigned int]), and it probes
    at most 40 names.  The distance [MAX_FONT_SIZE_OFFSET] itself is never
    tried. *)
Theorem zigzag_reaches_nine E basename S st :
  exists r names,
    simple_zigzag E basename S (Z.to_nat (MAX_FONT_SIZE_OFFSET * 2)) 0 st
    = Ok r (add_events (flat_map (probe_events E) names) st)
    /\ Forall (within_distance basename S (MAX_FONT_SIZE_OFFSET - 1)) names
    /\ (length names <= 40)%nat.
Proof.
  exists (first_font E (candidates basename S)), (tried E (candidates basename S)).
  split_and!.
  - by rewrite simple_zigzag_candidates probe_all_spec.
  - destruct (tried_sublist E (candidates basename S)) as [rest Hrest].
    pose proof (candidates_within_distance basename S) as Hall.
    rewrite Hrest in Hall. by apply Forall_app in Hall as [? _].
  - by pose proof (tried_length E (candidates basename S)).
Qed.

(** ** Repeated requests *)

Lemma with_font_twice mode key font evs st :
  mode <> FM_Unspecified ->
  m_font_cache (with_font mode key font (add_events evs (with_font mode key font st)))
  = m_font_cache (with_font mode key font st).
Proof.
  intros Hmode. rewrite /with_font /=. rewrite pm_get_set_eq //=.
  rewrite insert_insert_eq. by destruct mode.
Qed.

(** A request, repeated. *)
Lemma getFont_repeat E font_size mode st r st1 :
  getFont E font_size mode st = Ok r st1 ->
  exists st2,
    getFont E font_size mode st1 = Ok r st2
    /\ m_font_cache st2 = m_font_cache st1
    /\ m_currentMode st2 = m_currentMode st1
    /\ m_default_size st2 = m_default_size st1
    /\ skin_font st2 = skin_font st1.
Proof.
  intros (mode' & size' & Hres & Hmode & Hout)%getFont_Ok_outcome.
  have Hstep : forall st0,
      resolve E st0 font_size mode = Some (mode', size') ->
      simple_mode mode' = true ->
      cached st0 mode' size' = None ->
      getFont E font_size mode st0
      = match initSimpleFont E size' mode' st0 with
        | Ok _ st' => Ok (cached st' mode' size') st'
        | Fail f st' => Fail f st'
        end
    by intros st0 H1 H2 H3; apply getFont_miss_simple.
  have Hres' : forall st0,
      m_currentMode st0 = m_currentMode st ->
      m_default_size st0 = m_default_size st ->
      resolve E st0 font_size mode = Some (mode', size')
    by intros st0 H1 H2; rewrite -Hres; apply resolve_ext.
  destruct Hout as [f Hc | Hs Hc Hcl | basename Hs Hc Hcl Hfont
                   | basename f Hs Hc Hcl Hfont | f evs Ho Hc Hnz Hft Hatt].
  - exists st. by rewrite (getFont_hit _ _ _ _ _ _ _ Hres Hc).
  - eexists. rewrite Hstep; [by apply Hres' | done | done |].
    rewrite initSimpleFont_spec //. cbv zeta.
    rewrite Hcl !add_events_app cached_add_events Hc. done.
  - eexists. rewrite Hstep; [by apply Hres' | done | done |].
    rewrite initSimpleFont_spec //. cbv zeta.
    rewrite Hcl Hfont (tried_no_font _ _ Hfont) !add_events_app cached_add_events Hc.
    done.
  - destruct (decide (simple_key E size' = size')) as [Hk|Hk].
    + rewrite bool_decide_true //. eexists.
      erewrite getFont_hit; [done | by apply Hres' | ].
      by rewrite cached_with_font // bool_decide_true.
    + rewrite bool_decide_false //.
      have Hmiss : forall st0, cached st0 mode' size' = None ->
          cached (with_font mode' (simple_key E size') f st0) mode' size' = None.
      { intros st0 H0. rewrite cached_with_font // bool_decide_false //.
        by intros [_ ?]. }
      eexists. rewrite Hstep; [by apply Hres' | done | by apply Hmiss |].
      rewrite initSimpleFont_spec //. cbv zeta. rewrite Hcl Hfont.
      rewrite Hmiss; first by rewrite cached_add_events; apply Hmiss.
      split_and!; try done. by rewrite with_font_twice.
  - eexists. erewrite getFont_hit; [done | by apply Hres' | ].
    by rewrite cached_with_font // bool_decide_true.
Qed.

(** X8 — Asking again gives the same answer: when a request returns, the
    same request right after it returns the same result, a font or null,
    and leaves the cache, the mode, the default sizes and the font of the
    skin as the first one left them. *)
Theorem getFont_again E font_size mode st r st1 :
  getFont E font_size mode st = Ok r st1 ->
  exists st2,
    getFont E font_size mode st1 = Ok r st2
    /\ m_font_cache st2 = m_font_cache st1
    /\ m_currentMode st2 = m_currentMode st1
    /\ m_default_size st2 = m_default_size st1
    /\ skin_font st2 = skin_font st1.
Proof. apply getFont_repeat. Qed.

Lemma getFont_again_witness :
  exists st1 st2,
    getFont bare_env 12 FM_Standard (demo_state FM_Simple 16) = Ok None st1
    /\ getFont bare_env 12 FM_Standard st1 = Ok None st2
    /\ m_font_cache st2 = m_font_cache st1.
Proof.
  destruct (getFont bare_env 12 FM_Standard (demo_state FM_Simple 16))
    as [r st1|f st1] eqn:Hrun; [|vm_compute in Hrun; discriminate].
  destruct (getFont_again _ _ _ _ _ _ Hrun) as (st2 & Hagain & Hcache & _).
  assert (Hr : r = None) by (vm_compute in Hrun; injection Hrun as <- _; reflexivity).
  exists st1, st2. rewrite Hr in Hagain |- *. repeat split; assumption.
Defined.

(** ** Measuring text *)

Lemma getTextHeight_spec E font_size mode st :
  getTextHeight E font_size mode st
  = match getFont E font_size mode st with
    | Ok r st1 =>
        match measured_font r st1 with
        | Some f => Ok (getDimension E f "Some unimportant example String").2 st1
        | None => Fail Abort (add_events [ErrorStream "Could not get skin font"] st1)
        end
    | Fail e st1 => Fail e st1
    end.
Proof.
  rewrite /getTextHeight /bind /skin_fallback /FATAL_ERROR_IF /gets /ret /measured_font.
  destruct (getFont E font_size mode st) as [[f|] st1|]; try done.
  by destruct (skin_font st1).
Qed.

Lemma getLineHeight_spec E font_size mode st :
  getLineHeight E font_size mode st
  = match getFont E font_size mode st with
    | Ok r st1 =>
        match measured_font r st1 with
        | Some f => Ok (u32 ((getDimension E f "Some unimportant example String").2
                             + getKerningHeight E f)) st1
        | None => Fail Abort (add_events [ErrorStream "Could not get font"] st1)
        end
    | Fail e st1 => Fail e st1
    end.
Proof.
  rewrite /getLineHeight /bind /skin_fallback /FATAL_ERROR_IF /gets /ret /measured_font.
  destruct (getFont E font_size mode st) as [[f|] st1|]; try done.
  by destruct (skin_font st1).
Qed.

Lemma getTextWidth_spec E text font_size mode st :
  getTextWidth E text font_size mode st
  = match getFont E font_size mode st with
    | Ok r st1 =>
        match measured_font r st1 with
        | Some f => Ok (getDimension E f text).1 st1
        | None => Fail Abort (add_events [ErrorStream "Could not get font"] st1)
        end
    | Fail e st1 => Fail e st1
    end.
Proof.
  rewrite /getTextWidth /bind /skin_fallback /FATAL_ERROR_IF /gets /ret /measured_font.
  destruct (getFont E font_size mode st) as [[f|] st1|]; try done.
  by destruct (skin_font st1).
Qed.

(** X9 — Measuring again gives the same number: when [getTextHeight],
    [getLineHeight] or [getTextWidth] returns, the same call right after it
    returns the same value. *)
Theorem metrics_are_stable E text font_size mode st :
  match getTextHeight E font_size mode st with
  | Ok h st1 => exists st2, getTextHeight E font_size mode st1 = Ok h st2
  | Fail _ _ => True
  end
  /\ match getLineHeight E font_size mode st with
     | Ok h st1 => exists st2, getLineHeight E font_size mode st1 = Ok h st2
     | Fail _ _ => True
     end
  /\ match getTextWidth E text font_size mode st with
     | Ok w st1 => exists st2, getTextWidth E text font_size mode st1 = Ok w st2
     | Fail _ _ => True
     end.
Proof.
  rewrite (getTextHeight_spec E font_size mode st) (getLineHeight_spec E font_size mode st)
          (getTextWidth_spec E text font_size mode st).
  destruct (getFont E font_size mode st) as [r st1|] eqn:Hget; last done.
  destruct (getFont_repeat _ _ _ _ _ _ Hget) as (st2 & Hagain & _ & _ & _ & Hskin).
  have Hfont : measured_font r st2 = measured_font r st1
    by rewrite /measured_font Hskin.
  destruct (measured_font r st1) as [f|] eqn:Hf; last done.
  split_and!; exists st2.
  - by rewrite getTextHeight_spec Hagain Hfont.
  - by rewrite getLineHeight_spec Hagain Hfont.
  - by rewrite getTextWidth_spec Hagain Hfont.
Qed.

(** ** Where cached fonts come from *)

Lemma first_font_loaded E l f :
  first_font E l = Some f -> loaded_asset E f.
Proof.
  rewrite /first_font.
  destruct (list_find _ l) as [[i p]|] eqn:Hfind; last done.
  apply list_find_Some in Hfind as (_ & Hl & _).
  apply andb_true_iff in Hl as [Hex _]. intros Hf. by exists p.
Qed.

Lemma outline_attempt_made E size shadow alpha paths evs f :
  outline_attempt E size shadow alpha paths = (evs, Some f) ->
  exists font_path,
    font_path ∈ paths /\ createTTFont E font_path size shadow alpha = Some f.
Proof.
  revert evs. induction paths as [|p paths IH]; intros evs; first done.
  cbn [outline_attempt].
  destruct (createTTFont E p size shadow alpha) as [g|] eqn:Hg.
  - intros [= <- <-]. exists p. split; [left | done].
  - destruct (outline_attempt E size shadow alpha paths) as [evs' r] eqn:Hatt.
    cbn [fst snd]. intros [= <- ->].
    destruct (IH _ eq_refl) as (q & Hq & Hf). exists q. split; [by right | done].
Qed.

Lemma getFont_provenance E font_size mode st r st' :
  cache_provenance E st ->
  getFont E font_size mode st = Ok r st' ->
  cache_provenance E st'.
Proof.
  intros Hinv (mode' & size' & Hres & Hmode & Hout)%getFont_Ok_outcome.
  destruct Hout as [f Hc | Hs Hc Hcl | basename Hs Hc Hcl Hfont
                   | basename f Hs Hc Hcl Hfont | f evs Ho Hc Hnz Hft Hatt];
    try done.
  - intros m k g. rewrite cached_with_font // cached_add_events.
    case_bool_decide as Hmk; last by apply Hinv.
    destruct Hmk as [-> ->]. intros [= <-]. rewrite Hs.
    by eapply first_font_loaded.
  - intros m k g. rewrite cached_with_font // cached_add_events.
    case_bool_decide as Hmk; last by apply Hinv.
    destruct Hmk as [-> ->]. intros [= <-].
    destruct (outline_mode_not_simple _ Ho) as [-> _].
    split; first done. by eapply outline_attempt_made.
Qed.

(** X10 — Requests keep the provenance of the cache: if every cached font
    of a discrete-asset mode is an asset that exists and loads, and every
    cached font of an outline mode was made by the backend from one of the
    three candidate paths of its mode at the nonzero pixel size of its
    key, then the same holds after a request that returns. *)
Theorem getFont_keeps_provenance E font_size mode st r st' :
  cache_provenance E st ->
  getFont E font_size mode st = Ok r st' ->
  cache_provenance E st'.
Proof. apply getFont_provenance. Qed.

Lemma cache_provenance_flushed E st : cache_provenance E (flushed E st).
Proof. intros m k f. by rewrite cached_flushed. Qed.

Lemma getFont_keeps_provenance_witness :
  exists st',
    getFont fallback_only_env 12 FM_Mono (demo_state FM_Standard 16) = Ok (Some 5%N) st'
    /\ made_by_backend fallback_only_env FM_Mono 12 5%N.
Proof.
  destruct (getFont fallback_only_env 12 FM_Mono (demo_state FM_Standard 16))
    as [r st'|f st'] eqn:Hrun; [|vm_compute in Hrun; discriminate].
  assert (Hinv : cache_provenance fallback_only_env (demo_state FM_Standard 16))
    by (intros m k f; destruct m; discriminate).
  pose proof (getFont_keeps_provenance _ _ _ _ _ _ Hinv Hrun FM_Mono 12 5%N) as Hprov.
  assert (Hst : r = Some 5%N /\ cached st' FM_Mono 12 = Some 5%N)
    by (vm_compute in Hrun; injection Hrun as <- <-; split; reflexivity).
  destruct Hst as [-> Hc]. exists st'. split; [reflexivity|]. exact (Hprov Hc).
Defined.

(** ** After the settings are read *)

(** [updateSkin] by the result of its request. *)
Lemma updateSkin_spec E st :
  updateSkin E st
  = match getFont E (FONT_SIZE_UNSPECIFIED E) FM_Unspecified st with
    | Ok (Some f) st1 =>
        Ok tt (mkState (m_currentMode st1) (m_default_size st1) (m_font_cache st1)
                       (Some f) (trace st1 ++ [SkinSetFont f; text_height_info E f]))
    | Ok None st1 =>
        match skin_font st1 with
        | Some g => Ok tt (add_events [default_font_not_found E; text_height_info E g] st1)
        | None =>
            Fail Abort (add_events [default_font_not_found E;
                                    ErrorStream "Could not create/get font"] st1)
        end
    | Fail e st1 => Fail e st1
    end.
Proof.
  rewrite /updateSkin /bind.
  destruct (getFont E _ _ st) as [[f|] st1|]; try done.
  - rewrite /set_skin_font /modify /gets /FATAL_ERROR_IF /= /emit /modify /add_events /=.
    by rewrite -app_assoc.
  - rewrite /emit /modify /gets /FATAL_ERROR_IF /=.
    destruct (skin_font st1); simpl; by rewrite /emit /modify /bind /= ?add_events_app.
Qed.

Lemma configured_mode_index {A} E (t : per_mode A) :
  is_Some (pm_get t (configured_mode E)).
Proof.
  apply pm_get_is_Some. by destruct (configured_mode_cases E) as [-> | [-> | [-> _]]].
Qed.

Lemma configured_mode_enabled E :
  configured_mode E <> FM_Simple -> freetype_enabled E = true.
Proof. rewrite /configured_mode. by destruct (freetype_enabled E). Qed.

(** The default size of the active mode after the settings are read. *)
Lemma configured_default_size E old :
  pm_get (configured_sizes E old) (configured_mode E)
  = Some (settings_getU16 E (size_key (configured_mode E))).
Proof.
  rewrite /configured_sizes /configured_mode.
  destruct (freetype_enabled E); last done. by destruct (needs_fallback_font E).
Qed.

(** What [readSettings] amounts to when it returns: two requests for the
    default font from the flushed state, and the update of the skin. *)
Lemma readSettings_returns E st u st' :
  readSettings E st = Ok u st' ->
  exists d r1 st1 r2 st2 evs,
    d = settings_getU16 E (size_key (configured_mode E))
    /\ resolve E (flushed E st) (FONT_SIZE_UNSPECIFIED E) FM_Unspecified
       = Some (configured_mode E, d)
    /\ getFont E (FONT_SIZE_UNSPECIFIED E) FM_Unspecified (flushed E st) = Ok r1 st1
    /\ getFont E (FONT_SIZE_UNSPECIFIED E) FM_Unspecified st1 = Ok r2 st2
    /\ m_currentMode st' = m_currentMode st2
    /\ m_default_size st' = m_default_size st2
    /\ m_font_cache st' = m_font_cache st2
    /\ skin_font st' = measured_font r2 st2
    /\ is_Some (skin_font st')
    /\ trace st' = trace st2 ++ evs
    /\ creation_calls evs = 0%nat.
Proof.
  rewrite readSettings_flushed /bind /updateFontCache /bind /ret.
  destruct (getFont E _ FM_Unspecified (flushed E st)) as [r1 st1|] eqn:Hget1; last done.
  rewrite updateSkin_spec.
  destruct (getFont E _ FM_Unspecified st1) as [r2 st2|] eqn:Hget2; last done.
  intros Hrest.
  exists (settings_getU16 E (size_key (configured_mode E))), r1, st1, r2, st2.
  have Hres : resolve E (flushed E st) (FONT_SIZE_UNSPECIFIED E) FM_Unspecified
              = Some (configured_mode E, settings_getU16 E (size_key (configured_mode E))).
  { rewrite /resolve /normalized_size bool_decide_true //=.
    by rewrite configured_default_size. }
  destruct r2 as [f|].
  - injection Hrest as <- <-. eexists. by split_and!.
  - destruct (skin_font st2) as [g|] eqn:Hg; last done.
    injection Hrest as <- <-. eexists. by split_and!.
Qed.

Lemma readSettings_mode_and_sizes E st u st' :
  readSettings E st = Ok u st' ->
  m_currentMode st' = configured_mode E
  /\ m_default_size st' = configured_sizes E (m_default_size st).
Proof.
  intros (d & r1 & st1 & r2 & st2 & evs & _ & _ & Hget1 & Hget2 & Hm & Hs & _)%readSettings_returns.
  destruct (getFont_returns_state _ _ _ _ _ _ Hget1) as (Hm1 & Hs1 & _).
  destruct (getFont_returns_state _ _ _ _ _ _ Hget2) as (Hm2 & Hs2 & _).
  by rewrite Hm Hs Hm2 Hs2 Hm1 Hs1.
Qed.

(** X11 — Once the settings are read, [getDefaultFontSize] returns the
    configured size of the active mode, fallback_font_size in mode
    Fallback and font_size in modes Standard and Simple, and changes
    nothing. *)
Theorem getDefaultFontSize_after_readSettings E st u st' :
  readSettings E st = Ok u st' ->
  getDefaultFontSize st'
  = Ok (settings_getU16 E (if bool_decide (m_currentMode st' = FM_Fallback)
                           then "fallback_font_size" else "font_size")) st'.
Proof.
  intros [Hmode Hsizes]%readSettings_mode_and_sizes.
  rewrite /getDefaultFontSize /bind /gets /index Hmode Hsizes configured_default_size.
  by destruct (configured_mode_cases E) as [-> | [-> | [-> _]]].
Qed.

Lemma getDefaultFontSize_after_readSettings_witness :
  exists st',
    readSettings fallback_only_env (demo_state FM_Simple 33) = Ok tt st'
    /\ getDefaultFontSize st' = Ok 16 st'.
Proof.
  destruct (readSettings fallback_only_env (demo_state FM_Simple 33))
    as [[] st'|f st'] eqn:Hrun; [|vm_compute in Hrun; discriminate].
  exists st'. split; [reflexivity|].
  rewrite (getDefaultFontSize_after_readSettings _ _ _ _ Hrun).
  assert (Hm : m_currentMode st' = FM_Standard)
    by (vm_compute in Hrun; injection Hrun as <-; reflexivity).
  rewrite Hm. reflexivity.
Defined.

(** X12 — Once the settings are read the skin has a font, and it is in step
    with the engine: if the cache holds the default font of the active
    mode, the skin uses that font; if it holds none, the skin keeps the
    font it had. *)
Theorem readSettings_syncs_skin E st u st' :
  readSettings E st = Ok u st' ->
  exists d,
    pm_get (m_default_size st') (m_currentMode st') = Some d
    /\ is_Some (skin_font st')
    /\ skin_font st'
       = match cached st' (m_currentMode st') d with
         | Some f => Some f
         | None => skin_font st
         end.
Proof.
  intros Hrun.
  destruct (readSettings_mode_and_sizes _ _ _ _ Hrun) as [Hmode Hsizes].
  destruct (readSettings_returns _ _ _ _ Hrun)
    as (d & r1 & st1 & r2 & st2 & evs & -> & Hres & Hget1 & Hget2 & _ & _ & Hcache
        & Hskin & Hsome & _).
  eexists. rewrite Hmode Hsizes configured_default_size. split_and!; try done.
  destruct (getFont_returns_state _ _ _ _ _ _ Hget1) as (Hm1 & Hs1 & _).
  have Hres1 : resolve E st1 (FONT_SIZE_UNSPECIFIED E) FM_Unspecified
               = Some (configured_mode E, settings_getU16 E (size_key (configured_mode E)))
    by rewrite -Hres; apply resolve_ext.
  destruct (getFont_returns _ _ _ _ _ _ Hget2) as (m2 & s2 & evs2 & Hres2 & _ & Hr2 & Hst2).
  rewrite Hres1 in Hres2. injection Hres2 as <- <-.
  rewrite (cached_ext _ _ _ _ Hcache) -Hr2 Hskin /measured_font.
  destruct r2; first done.
  have -> : skin_font st2 = skin_font st1 by destruct Hst2 as [-> | [f ->]].
  destruct (getFont_returns _ _ _ _ _ _ Hget1) as (m1 & s1 & evs1 & _ & _ & _ & Hst1).
  by destruct Hst1 as [-> | [f ->]].
Qed.

Lemma readSettings_syncs_skin_witness :
  exists st',
    readSettings fallback_only_env (demo_state FM_Simple 33) = Ok tt st'
    /\ cached st' FM_Standard 16 = Some 5%N
    /\ skin_font st' = Some 5%N.
Proof.
  destruct (readSettings fallback_only_env (demo_state FM_Simple 33))
    as [[] st'|f st'] eqn:Hrun; [|vm_compute in Hrun; discriminate].
  exists st'.
  destruct (readSettings_syncs_skin _ _ _ _ Hrun) as (d & Hd & _ & Hskin).
  assert (Hst : m_currentMode st' = FM_Standard
                /\ m_default_size st' = PerMode 16 15 14 16 15
                /\ cached st' FM_Standard 16 = Some 5%N)
    by (vm_compute in Hrun; injection Hrun as <-; repeat split; reflexivity).
  destruct Hst as (Hm & Hs & Hc).
  rewrite Hm Hs in Hd. injection Hd as <-. rewrite Hm Hc in Hskin.
  split; [reflexivity|]. split; assumption.
Defined.

(** ** How often the strategies run *)

Lemma creation_calls_app evs1 evs2 :
  creation_calls (evs1 ++ evs2) = (creation_calls evs1 + creation_calls evs2)%nat.
Proof. by rewrite /creation_calls filter_app length_app. Qed.

Lemma creation_calls_probe_events E l :
  creation_calls (flat_map (probe_events E) l) = 0%nat.
Proof.
  induction l as [|p l IH]; first done.
  cbn [flat_map]. rewrite creation_calls_app IH /probe_events.
  destruct (fs_PathExists E p); last done. by destruct (env_getFont E p).
Qed.

Lemma creation_calls_outline_attempt E size shadow alpha paths :
  creation_calls (outline_attempt E size shadow alpha paths).1 = 0%nat.
Proof.
  induction paths as [|p paths IH]; first done.
  cbn [outline_attempt]. by destruct (createTTFont E p size shadow alpha).
Qed.

Lemma creation_calls_drops caches : creation_calls (drops caches) = 0%nat.
Proof.
  rewrite /drops /pm_elems /= !creation_calls_app.
  have Hmap : forall l : list (Z * IGUIFont),
      creation_calls (map (fun kv => Drop kv.2) l) = 0%nat
    by induction l.
  by rewrite !Hmap.
Qed.

Lemma trace_add_events evs st : trace (add_events evs st) = trace st ++ evs.
Proof. reflexivity. Qed.

Lemma trace_with_font mode key font st : trace (with_font mode key font st) = trace st.
Proof. reflexivity. Qed.

Lemma creation_calls_call_simple basesize mode evs :
  creation_calls (Call_initSimpleFont basesize mode :: evs) = S (creation_calls evs).
Proof. reflexivity. Qed.

Lemma creation_calls_call_outline basesize mode evs :
  creation_calls (Call_initFont basesize mode :: evs) = S (creation_calls evs).
Proof. reflexivity. Qed.

(** A request that returns ran a creation strategy once if it missed the
    cache and not at all if it hit. *)
Lemma getFont_creation_calls E font_size mode st r st' mode' size' :
  getFont E font_size mode st = Ok r st' ->
  resolve E st font_size mode = Some (mode', size') ->
  creation_calls (trace st')
  = (creation_calls (trace st)
     + match cached st mode' size' with Some _ => 0 | None => 1 end)%nat.
Proof.
  intros (m' & s' & Hres & Hmode & Hout)%getFont_Ok_outcome Hres'.
  rewrite Hres in Hres'. injection Hres' as -> ->.
  destruct Hout as [f Hc | Hs Hc Hcl | basename Hs Hc Hcl Hfont
                   | basename f Hs Hc Hcl Hfont | f evs Ho Hc Hnz Hft Hatt];
    rewrite Hc ?trace_with_font ?trace_add_events ?creation_calls_app
            ?creation_calls_call_simple ?creation_calls_call_outline
            ?creation_calls_probe_events; try done; try lia.
  pose proof (creation_calls_outline_attempt E (scaled_size E size') (outline_shadow E mode')
                (outline_shadow_alpha E mode') (outline_paths E mode')) as H0.
  rewrite Hatt /= in H0. by rewrite H0.
Qed.

(** X13 — Reading the settings runs the creation strategy of the active
    mode once when it yields the default font, and twice when it yields
    none: the font is requested once for the cache and once more for the
    skin, and a failed search is not remembered in between. *)
Theorem readSettings_creation_calls E st u st' :
  readSettings E st = Ok u st' ->
  exists d,
    pm_get (m_default_size st') (m_currentMode st') = Some d
    /\ creation_calls (trace st')
       = (creation_calls (trace st)
          + match cached st' (m_currentMode st') d with Some _ => 1 | None => 2 end)%nat.
Proof.
  intros Hrun.
  destruct (readSettings_mode_and_sizes _ _ _ _ Hrun) as [Hmode Hsizes].
  destruct (readSettings_returns _ _ _ _ Hrun)
    as (d & r1 & st1 & r2 & st2 & evs & -> & Hres & Hget1 & Hget2 & _ & _ & Hcache
        & _ & _ & Htrace & Hevs).
  eexists. rewrite Hmode Hsizes configured_default_size. split; first done.
  destruct (getFont_returns_state _ _ _ _ _ _ Hget1) as (Hm1 & Hs1 & _).
  have Hres1 : resolve E st1 (FONT_SIZE_UNSPECIFIED E) FM_Unspecified
               = Some (configured_mode E, settings_getU16 E (size_key (configured_mode E)))
    by rewrite -Hres; apply resolve_ext.
  rewrite Htrace creation_calls_app Hevs Nat.add_0_r.
  rewrite (getFont_creation_calls _ _ _ _ _ _ _ _ Hget2 Hres1).
  rewrite (getFont_creation_calls _ _ _ _ _ _ _ _ Hget1 Hres).
  rewrite cached_flushed /flushed /= creation_calls_app creation_calls_drops.
  rewrite (cached_ext _ _ _ _ Hcache).
  destruct (getFont_returns _ _ _ _ _ _ Hget1) as (m1 & s1 & evs1 & Hr1 & _ & Hc1 & _).
  rewrite Hres in Hr1. injection Hr1 as <- <-.
  destruct (getFont_returns _ _ _ _ _ _ Hget2) as (m2 & s2 & evs2 & Hr2 & _ & Hc2 & _).
  rewrite Hres1 in Hr2. injection Hr2 as <- <-.
  destruct (getFont_repeat _ _ _ _ _ _ Hget1) as (st2' & Hagain & _).
  rewrite Hget2 in Hagain. injection Hagain as -> _.
  rewrite -Hc2 -Hc1. destruct r1; lia.
Qed.

Lemma readSettings_creation_calls_witness :
  exists st',
    readSettings bare_env (demo_state FM_Standard 33) = Ok tt st'
    /\ cached st' FM_Simple 16 = None
    /\ creation_calls (trace st') = 2%nat.
Proof.
  destruct (readSettings bare_env (demo_state FM_Standard 33))
    as [[] st'|f st'] eqn:Hrun; [|vm_compute in Hrun; discriminate].
  exists st'.
  destruct (readSettings_creation_calls _ _ _ _ Hrun) as (d & Hd & Hcalls).
  assert (Hst : m_currentMode st' = FM_Simple
                /\ m_default_size st' = PerMode 33 33 33 16 15
                /\ cached st' FM_Simple 16 = None)
    by (vm_compute in Hrun; injection Hrun as <-; repeat split; reflexivity).
  destruct Hst as (Hm & Hs & Hc).
  rewrite Hm Hs in Hd. injection Hd as <-. rewrite Hm Hc in Hcalls.
  split; [reflexivity|]. split; assumption.
Defined.

(** ** Teardown *)

Lemma in_order_singleton key font : in_order (<[key := font]> ∅) = [(key, font)].
Proof. by rewrite /in_order insert_empty map_to_list_singleton. Qed.

Lemma map_to_list_one key (font : IGUIFont) :
  map_to_list (<[key := font]> (∅ : gmap Z IGUIFont)) = [(key, font)].
Proof. by rewrite insert_empty map_to_list_singleton. Qed.

(** The cache with one font in the table of [mode]. *)
Lemma one_font_entries mode key font :
  mode <> FM_Unspecified ->
  cache_entries (pm_set (pm_const ∅) mode (<[key := font]> ∅)) = [(key, font)]
  /\ drops (pm_set (pm_const ∅) mode (<[key := font]> ∅)) = [Drop font].
Proof.
  intros Hmode. rewrite /cache_entries /drops /pm_elems.
  destruct mode; try done; cbn [pm_set pm_const at_Standard at_Mono at_Fallback
                                 at_Simple at_SimpleMono flat_map];
    rewrite ?in_order_singleton ?map_to_list_one; split; reflexivity.
Qed.

Lemma with_font_flushed E st mode key font evs :
  mode <> FM_Unspecified ->
  m_font_cache (with_font mode key font (add_events evs (flushed E st)))
  = pm_set (pm_const ∅) mode (<[key := font]> ∅).
Proof. by destruct mode. Qed.

Lemma cache_entries_empty : cache_entries (pm_const ∅) = [].
Proof. reflexivity. Qed.

Lemma m_font_cache_flushed E st : m_font_cache (flushed E st) = pm_const ∅.
Proof. reflexivity. Qed.

(** X14 — Once the settings are read the cache holds at most one font, and
    tearing the engine down right then drops exactly that font, once, and
    leaves every table empty. *)
Theorem teardown_after_readSettings E st u st' :
  readSettings E st = Ok u st' ->
  (length (cache_entries (m_font_cache st')) <= 1)%nat
  /\ FontEngine_delete st'
     = Ok tt (mkState (m_currentMode st') (m_default_size st') (pm_const ∅)
                      (skin_font st')
                      (trace st' ++ map (fun kv : Z * IGUIFont => Drop kv.2)
                                        (cache_entries (m_font_cache st')))).
Proof.
  intros (d & r1 & st1 & r2 & st2 & evs & _ & _ & Hget1 & Hget2 & _ & _ & Hcache & _)%
         readSettings_returns.
  destruct (getFont_repeat _ _ _ _ _ _ Hget1) as (st2' & Hagain & Hsame & _).
  rewrite Hget2 in Hagain. injection Hagain as _ <-.
  rewrite /FontEngine_delete cleanCache_spec Hcache Hsame.
  destruct (getFont_Ok_outcome _ _ _ _ _ _ Hget1) as (mode' & size' & _ & Hmode & Hout).
  destruct Hout as [f Hc | Hs Hc Hcl | basename Hs Hc Hcl Hfont
                   | basename f Hs Hc Hcl Hfont | f evs1 Ho Hc Hnz Hft Hatt].
  - by rewrite cached_flushed in Hc.
  - rewrite m_font_cache_add_events m_font_cache_flushed cache_entries_empty drops_empty.
    split; [simpl; lia | done].
  - rewrite m_font_cache_add_events m_font_cache_flushed cache_entries_empty drops_empty.
    split; [simpl; lia | done].
  - rewrite with_font_flushed //.
    destruct (one_font_entries mode' (simple_key E size') f Hmode) as [-> ->].
    split; [simpl; lia | done].
  - rewrite with_font_flushed //.
    destruct (one_font_entries mode' size' f Hmode) as [-> ->].
    split; [simpl; lia | done].
Qed.

Lemma teardown_after_readSettings_witness :
  exists st',
    readSettings fallback_only_env (demo_state FM_Simple 33) = Ok tt st'
    /\ cache_entries (m_font_cache st') = [(16, 5%N)]
    /\ exists st'', FontEngine_delete st' = Ok tt st''
                    /\ trace st'' = trace st' ++ [Drop 5%N].
Proof.
  destruct (readSettings fallback_only_env (demo_state FM_Simple 33))
    as [[] st'|f st'] eqn:Hrun; [|vm_compute in Hrun; discriminate].
  exists st'.
  destruct (teardown_after_readSettings _ _ _ _ Hrun) as [_ Hdel].
  assert (Hentries : cache_entries (m_font_cache st') = [(16, 5%N)])
    by (vm_compute in Hrun; injection Hrun as <-; reflexivity).
  rewrite Hentries in Hdel.
  split; [reflexivity|]. split; [exact Hentries|].
  eexists. split; [exact Hdel | reflexivity].
Defined.

(** ** Construction *)

Lemma FontEngine_new_spec E st :
  FontEngine_new E st
  = match readSettings E (mkState (m_currentMode st) (pm_const (FONT_SIZE_UNSPECIFIED E))
                                  (m_font_cache st) (skin_font st) (trace st)) with
    | Ok _ st' => Ok (registered_keys (m_currentMode st')) st'
    | Fail f st' => Fail f st'
    end.
Proof.
  rewrite /FontEngine_new /bind /modify /gets /ret.
  by destruct (readSettings E _).
Qed.

(** X15 — The constructor always subscribes to mono_font_path,
    mono_font_size, screen_dpi and gui_scaling.  Before them it subscribes
    to the four settings of the active mode when that is Standard
    (font_size, font_path, font_shadow, font_shadow_alpha) or Fallback
    (the same under fallback_); with the backend missing or disabled the
    mode is Simple and it subscribes to none of them, so the engine is
    not told when font_size or font_path change.  The default sizes of the
    outline modes then still hold the unspecified sentinel. *)
Theorem constructor_subscriptions E st keys st' :
  FontEngine_new E st = Ok keys st' ->
  keys = (if freetype_enabled E then
            if needs_fallback_font E
            then ["fallback_font_size"; "fallback_font_path"; "fallback_font_shadow";
                  "fallback_font_shadow_alpha"]
            else ["font_size"; "font_path"; "font_shadow"; "font_shadow_alpha"]
          else [])
         ++ ["mono_font_path"; "mono_font_size"; "screen_dpi"; "gui_scaling"]
  /\ m_currentMode st' = configured_mode E
  /\ m_default_size st'
     = if freetype_enabled E
       then sizes_from_configuration E
       else PerMode (FONT_SIZE_UNSPECIFIED E) (FONT_SIZE_UNSPECIFIED E)
                    (FONT_SIZE_UNSPECIFIED E)
                    (settings_getU16 E "font_size") (settings_getU16 E "mono_font_size").
Proof.
  rewrite FontEngine_new_spec.
  destruct (readSettings E _) as [u st1|] eqn:Hrun; last done.
  intros [= <- <-].
  destruct (readSettings_mode_and_sizes _ _ _ _ Hrun) as [Hmode Hsizes].
  rewrite Hmode Hsizes /configured_mode /configured_sizes /registered_keys.
  destruct (freetype_enabled E); last done.
  by destruct (needs_fallback_font E).
Qed.

Lemma constructor_subscriptions_witness :
  exists st',
    FontEngine_new bare_env (unconstructed (Some 1%N))
    = Ok ["mono_font_path"; "mono_font_size"; "screen_dpi"; "gui_scaling"] st'
    /\ m_currentMode st' = FM_Simple
    /\ pm_get (m_default_size st') FM_Standard = Some 4294967295.
Proof.
  destruct (FontEngine_new bare_env (unconstructed (Some 1%N)))
    as [keys st'|f st'] eqn:Hrun; [|vm_compute in Hrun; discriminate].
  exists st'.
  destruct (constructor_subscriptions _ _ _ _ Hrun) as (-> & Hm & Hs).
  split; [reflexivity|]. split; [exact Hm|]. rewrite Hs. reflexivity.
Defined.

(** ** Independence of the skin *)

Lemma skin_independent_ret {A} (a : A) : skin_independent (ret a).
Proof. intros st. exists []. intros skin tr. by rewrite /ret /= app_nil_r. Qed.

Lemma skin_independent_fail {A} f : skin_independent (@fail A f).
Proof. intros st. exists []. intros skin tr. by rewrite /fail /= app_nil_r. Qed.

Lemma skin_independent_bind {A B} (c : M A) (k : A -> M B) :
  skin_independent c -> (forall a, skin_independent (k a)) ->
  skin_independent (bind c k).
Proof.
  intros Hc Hk st. destruct (Hc st) as [evs1 H1].
  rewrite /bind. destruct (c st) as [a st1|f st1] eqn:Hrun.
  - destruct (Hk a st1) as [evs2 H2]. exists (evs1 ++ evs2). intros skin tr.
    by rewrite H1 /= H2 app_assoc.
  - exists evs1. intros skin tr. by rewrite H1.
Qed.

Lemma skin_independent_emit e : skin_independent (emit e).
Proof. intros st. exists [e]. intros skin tr. done. Qed.

Lemma skin_independent_gets_mode : skin_independent (gets m_currentMode).
Proof. intros st. exists []. intros skin tr. by rewrite /gets /= app_nil_r. Qed.

Lemma skin_independent_gets_cache : skin_independent (gets m_font_cache).
Proof. intros st. exists []. intros skin tr. by rewrite /gets /= app_nil_r. Qed.

Lemma skin_independent_index_sizes mode : skin_independent (index m_default_size mode).
Proof.
  intros st. exists []. intros skin tr. rewrite /index /=.
  destruct (pm_get _ _); by rewrite /= app_nil_r.
Qed.

Lemma skin_independent_index_cache mode : skin_independent (index m_font_cache mode).
Proof.
  intros st. exists []. intros skin tr. rewrite /index /=.
  destruct (pm_get _ _); by rewrite /= app_nil_r.
Qed.

Lemma skin_independent_cache_assign mode key font :
  skin_independent (cache_assign mode key font).
Proof.
  intros st. exists []. intros skin tr. rewrite /cache_assign /bind /index /modify /=.
  destruct (pm_get _ _); by rewrite /= app_nil_r.
Qed.

Lemma skin_independent_assert E cond expr : skin_independent (assert E cond expr).
Proof.
  rewrite /assert. destruct (_ || _);
    [apply skin_independent_ret | apply skin_independent_fail].
Qed.

Ltac solve_skin_independent :=
  lazymatch goal with
  | |- skin_independent (bind _ _) =>
      apply skin_independent_bind; [solve_skin_independent | intros ?; solve_skin_independent]
  | |- skin_independent (ret _) => apply skin_independent_ret
  | |- skin_independent (fail _) => apply skin_independent_fail
  | |- skin_independent (emit _) => apply skin_independent_emit
  | |- skin_independent (assert _ _ _) => apply skin_independent_assert
  | |- skin_independent (cache_assign _ _ _) => apply skin_independent_cache_assign
  | |- skin_independent (index m_font_cache _) => apply skin_independent_index_cache
  | |- skin_independent (index m_default_size _) => apply skin_independent_index_sizes
  | |- skin_independent (gets m_currentMode) => apply skin_independent_gets_mode
  | |- skin_independent (gets m_font_cache) => apply skin_independent_gets_cache
  | |- skin_independent (if ?b then _ else _) => destruct b; solve_skin_independent
  | |- skin_independent (match ?o with _ => _ end) => destruct o; solve_skin_independent
  | |- _ => try eassumption
  end.

Lemma skin_independent_initFont_paths E paths size shadow shadow_alpha basesize mode :
  skin_independent (initFont_paths E paths size shadow shadow_alpha basesize mode).
Proof.
  induction paths as [|font_path rest IH]; first apply skin_independent_ret.
  rewrite initFont_paths_cons /call_createTTFont. solve_skin_independent.
Qed.

Lemma skin_independent_simple_extensions E basename number exts :
  skin_independent (simple_extensions E basename number exts).
Proof.
  induction exts as [|ext rest IH]; first apply skin_independent_ret.
  cbn [simple_extensions]. rewrite /call_PathExists /call_env_getFont. cbv zeta.
  solve_skin_independent.
Qed.

Lemma simple_zigzag_S E basename size fuel zoffset :
  simple_zigzag E basename size (S fuel) zoffset
  = if zoffset <? MAX_FONT_SIZE_OFFSET * 2 then
      font <- simple_extensions E basename
                (u32 (size + Z.shiftr zoffset 1 * (if Z.land zoffset 1 =? 0 then 1 else -1)))
                font_extensions ;;
      match font with
      | Some f => ret (Some f)
      | None => simple_zigzag E basename size fuel (zoffset + 1)
      end
    else ret None.
Proof. reflexivity. Qed.

Lemma skin_independent_simple_zigzag E basename size fuel zoffset :
  skin_independent (simple_zigzag E basename size fuel zoffset).
Proof.
  revert zoffset. induction fuel as [|fuel IH]; intros zoffset;
    first apply skin_independent_ret.
  rewrite simple_zigzag_S.
  destruct (zoffset <? MAX_FONT_SIZE_OFFSET * 2); last apply skin_independent_ret.
  apply skin_independent_bind; first apply skin_independent_simple_extensions.
  intros [f|]; [apply skin_independent_ret | apply IH].
Qed.

Lemma skin_independent_initFont E basesize mode :
  skin_independent (initFont E basesize mode).
Proof.
  rewrite /initFont. cbv zeta.
  repeat (apply skin_independent_bind; [by solve_skin_independent | intros ?]).
  destruct (_ !! _); first apply skin_independent_ret.
  destruct (_ =? 0); first by solve_skin_independent.
  destruct (USE_FREETYPE E); last by solve_skin_independent.
  apply skin_independent_bind; first apply skin_independent_initFont_paths.
  intros []; solve_skin_independent.
Qed.

Lemma skin_independent_initSimpleFont E basesize mode :
  skin_independent (initSimpleFont E basesize mode).
Proof.
  rewrite /initSimpleFont /call_PathExists /call_env_getFont. cbv zeta.
  repeat (apply skin_independent_bind; [by solve_skin_independent | intros ?]).
  destruct (substr_from _ _); last apply skin_independent_fail.
  destruct (bool_decide (_ = ".ttf")); first apply skin_independent_emit.
  apply skin_independent_bind; first apply skin_independent_simple_zigzag.
  intros font.
  apply skin_independent_bind; first by (destruct font; solve_skin_independent).
  intros []; solve_skin_independent.
Qed.

Lemma skin_independent_getFont E font_size mode :
  skin_independent (getFont E font_size mode).
Proof.
  rewrite /getFont. cbv zeta.
  apply skin_independent_bind; first apply skin_independent_gets_mode.
  intros currentMode.
  apply skin_independent_bind;
    first by (destruct (bool_decide (font_size = _)); solve_skin_independent).
  intros size.
  apply skin_independent_bind; first apply skin_independent_index_cache.
  intros cache.
  apply skin_independent_bind; last by (intros ?; solve_skin_independent).
  destruct (cache !! size); first apply skin_independent_ret.
  destruct (bool_decide (_ ∨ _));
    [apply skin_independent_initSimpleFont | apply skin_independent_initFont].
Qed.

(** X16 — A request neither reads nor writes the font of the skin and
    only appends to the log: started with any other skin font and any other
    log it returns (or fails) alike, leaves the same mode, default sizes and
    cache, and appends the same events. *)
Theorem getFont_ignores_the_skin E font_size mode st :
  exists evs, forall skin tr,
    getFont E font_size mode (reframe skin tr st)
    = on_state (reframe skin (tr ++ evs)) (getFont E font_size mode st).
Proof. apply skin_independent_getFont. Qed.

(** ** The settings callback *)





(** ** Provenance once the settings are read *)

Lemma cache_provenance_ext E st st' :
  m_font_cache st' = m_font_cache st -> cache_provenance E st -> cache_provenance E st'.
Proof. intros Hc Hinv m k f. rewrite (cached_ext _ _ _ _ Hc). apply Hinv. Qed.

(** X18 — Whatever the cache held before, once the settings are read every
    cached font of a discrete-asset mode is an asset that exists and
    loads, and every cached font of an outline mode was made by the
    backend from one of the three candidate paths of its mode at the
    nonzero pixel size of its key. *)
Theorem readSettings_establishes_provenance E st u st' :
  readSettings E st = Ok u st' ->
  cache_provenance E st'.
Proof.
  intros (d & r1 & st1 & r2 & st2 & evs & _ & _ & H1 & H2 & _ & _ & Hc & _)%readSettings_returns.
  apply (cache_provenance_ext _ st2); first done.
  eapply getFont_provenance; last exact H2.
  eapply getFont_provenance; last exact H1.
  apply cache_provenance_flushed.
Qed.

Lemma readSettings_establishes_provenance_witness :
  exists st',
    readSettings fallback_only_env (demo_state FM_Simple 33) = Ok tt st'
    /\ cached st' FM_Standard 16 = Some 5%N
    /\ made_by_backend fallback_only_env FM_Standard 16 5%N.
Proof.
  destruct (readSettings fallback_only_env (demo_state FM_Simple 33))
    as [[] st'|f st'] eqn:Hrun; [|vm_compute in Hrun; discriminate].
  pose proof (readSettings_establishes_provenance _ _ _ _ Hrun FM_Standard 16 5%N) as Hprov.
  assert (Hc : cached st' FM_Standard 16 = Some 5%N)
    by (vm_compute in Hrun; injection Hrun as <-; reflexivity).
  exists st'. split; [reflexivity|]. split; [exact Hc|]. exact (Hprov Hc).
Defined.

(** ** Measuring once the settings are read *)

Lemma reframe_eq st st' :
  m_currentMode st' = m_currentMode st ->
  m_default_size st' = m_default_size st ->
  m_font_cache st' = m_font_cache st ->
  st' = reframe (skin_font st') (trace st') st.
Proof. destruct st, st'; rewrite /reframe /=. by intros -> -> ->. Qed.

(** The default request once the settings are read: it returns, and the
    font to measure with is the font of the skin. *)
Lemma default_request_after_readSettings E st u st' :
  readSettings E st = Ok u st' ->
  exists r st'' f,
    getFont E (FONT_SIZE_UNSPECIFIED E) FM_Unspecified st' = Ok r st''
    /\ skin_font st' = Some f
    /\ measured_font r st'' = Some f.
Proof.
  intros (d & r1 & st1 & r2 & st2 & evs & _ & _ & _ & H2 & Hm & Hs & Hc & Hskin
          & [f Hf] & _)%readSettings_returns.
  destruct (getFont_repeat _ _ _ _ _ _ H2) as (st3 & H3 & _).
  destruct (skin_independent_getFont E (FONT_SIZE_UNSPECIFIED E) FM_Unspecified st2)
    as [evs3 Hind].
  rewrite (reframe_eq st2 st') // Hind H3 /=.
  eexists _, _, f. split; first reflexivity. split; first done.
  rewrite /measured_font /=. rewrite Hf /measured_font in Hskin.
  by destruct r2.
Qed.

(** X19 — Once the settings are read, measuring with the default size and
    mode never aborts: [getTextHeight], [getLineHeight] and [getTextWidth]
    return, and what they measure is the font of the skin. *)
Theorem metrics_after_readSettings E st u st' text :
  readSettings E st = Ok u st' ->
  let sample := "Some unimportant example String" in
  exists f st'',
    skin_font st' = Some f
    /\ getTextHeight E (FONT_SIZE_UNSPECIFIED E) FM_Unspecified st'
       = Ok (getDimension E f sample).2 st''
    /\ getLineHeight E (FONT_SIZE_UNSPECIFIED E) FM_Unspecified st'
       = Ok (u32 ((getDimension E f sample).2 + getKerningHeight E f)) st''
    /\ getTextWidth E text (FONT_SIZE_UNSPECIFIED E) FM_Unspecified st'
       = Ok (getDimension E f text).1 st''.
Proof.
  intros (r & st'' & f & Hreq & Hskin & Hfont)%default_request_after_readSettings sample.
  exists f, st''.
  by rewrite getTextHeight_spec getLineHeight_spec getTextWidth_spec Hreq Hfont.
Qed.

Lemma metrics_after_readSettings_witness :
  exists st' st'',
    readSettings bare_env (demo_state FM_Standard 16) = Ok tt st'
    /\ skin_font st' = Some 1%N
    /\ getTextWidth bare_env "abc" (FONT_SIZE_UNSPECIFIED bare_env) FM_Unspecified st'
       = Ok (getDimension bare_env 1%N "abc").1 st''.
Proof.
  destruct (readSettings bare_env (demo_state FM_Standard 16))
    as [[] st'|f st'] eqn:Hrun; [|vm_compute in Hrun; discriminate].
  destruct (metrics_after_readSettings _ _ _ _ "abc" Hrun) as (f & st'' & Hskin & _ & _ & Hw).
  assert (Hone : skin_font st' = Some 1%N)
    by (vm_compute in Hrun; injection Hrun as <-; reflexivity).
  rewrite Hone in Hskin. injection Hskin as <-.
  exists st', st''. split; [reflexivity|]. split; [exact Hone | exact Hw].
Defined.
